(** * The gopilot-orchestrator gateway (orchestrator/main.py)

    A shallow embedding of the FastAPI gateway: upstream resolution and
    authentication dispatch ([_get_upstream_config]), the chat-completions
    handler with its request and response translation, the streaming
    emulator ([sse_iter]) and the raw prediction passthrough.

    Conventions of the model.
    - A Python [str] is a [string]; one [ascii] stands for one code point
      (code points below 256).
    - A parsed JSON document is a [json] value; a Python [dict] keeps its
      insertion order, so an object is an association list.
    - The process environment is an association list read by [getenv].
    - The upstream service is a function from the outbound request to what
      httpx reports: a transport failure, a response, or another
      exception.
    - Building a [JSONResponse] encodes its body at once and fails on a
      number that is not finite.
    - An exception that leaves a handler is an [Unhandled] outcome. *)

From Stdlib Require Import ZArith String Ascii List Bool Arith Lia DecimalString.
Set Warnings "-register-all".
Set Warnings "-notation-incompatible-prefix".
Import ListNotations.
Open Scope string_scope.

(** ** Python values and built-ins *)

Module Py.

(** Characters that a Rocq string literal cannot hold directly. *)
Definition LF : string := String (ascii_of_nat 10) "".
Definition dquote : ascii := ascii_of_nat 34.
Definition squote : ascii := ascii_of_nat 39.
Definition backslash : ascii := ascii_of_nat 92.
Definition chr (n : nat) : string := String (ascii_of_nat n) "".

(** [s.rstrip(c)]: drop every trailing occurrence of the character [c]. *)
Fixpoint rstrip (c : ascii) (s : string) : string :=
  match s with
  | EmptyString => EmptyString
  | String a t =>
      let t' := rstrip c t in
      if (t' =? "") && (a =? c)%char then EmptyString else String a t'
  end.

(** [needle in hay] on strings. *)
Fixpoint contains (needle hay : string) : bool :=
  prefix needle hay ||
  match hay with
  | EmptyString => false
  | String _ t => contains needle t
  end.

(** [s.lower()] on code points below 256: A-Z and the Latin-1 capitals. *)
Definition lower_char (c : ascii) : ascii :=
  let n := nat_of_ascii c in
  if (((65 <=? n) && (n <=? 90)) ||
      ((192 <=? n) && (n <=? 222) && negb (n =? 215)))%nat
  then ascii_of_nat (n + 32) else c.

Fixpoint lower (s : string) : string :=
  match s with
  | EmptyString => EmptyString
  | String a t => String (lower_char a) (lower t)
  end.

(** [s[i:j]] for [0 <= i]. *)
Definition str_slice (s : string) (i j : nat) : string := substring i (j - i) s.

Definition list_slice {A} (l : list A) (i j : nat) : list A :=
  firstn (j - i) (skipn i l).

(** [range(start, stop, step)] for a positive step; [stop] iterations are
    always enough when [step >= 1]. *)
Fixpoint range_from (fuel i stop step : nat) : list nat :=
  match fuel with
  | O => []
  | S fuel' => if (i <? stop)%nat then i :: range_from fuel' (i + step) stop step else []
  end.

Definition range (start stop step : nat) : list nat :=
  range_from stop start stop step.

(** JSON documents as Python objects.  A float is carried by its [repr]. *)
Inductive json : Type :=
| JNull
| JBool (b : bool)
| JInt (z : Z)
| JFloat (repr : string)
| JStr (s : string)
| JList (l : list json)
| JDict (d : list (string * json)).

Definition dict := list (string * json).

(** Truth value of an object ([bool(v)], [not v], [v or w]). *)
Definition truthy (v : json) : bool :=
  match v with
  | JNull => false
  | JBool b => b
  | JInt z => negb (z =? 0)%Z
  | JFloat r => negb ((r =? "0.0") || (r =? "-0.0"))
  | JStr s => negb (s =? "")
  | JList l => match l with [] => false | _ => true end
  | JDict d => match d with [] => false | _ => true end
  end.

Definition py_or (a b : json) : json := if truthy a then a else b.

(** Dictionaries. *)
Fixpoint lookup {A} (k : string) (d : list (string * A)) : option A :=
  match d with
  | [] => None
  | (k', v) :: t => if k' =? k then Some v else lookup k t
  end.

(** [d.get(k, dflt)] *)
Definition dict_get (d : dict) (k : string) (dflt : json) : json :=
  match lookup k d with Some v => v | None => dflt end.

(** [k in d] *)
Definition dict_mem {A} (k : string) (d : list (string * A)) : bool :=
  match lookup k d with Some _ => true | None => false end.

(** [d[k] = v]: overwrite in place, or append a new key at the end. *)
Fixpoint dict_set {A} (d : list (string * A)) (k : string) (v : A)
  : list (string * A) :=
  match d with
  | [] => [(k, v)]
  | (k', v') :: t =>
      if k' =? k then (k', v) :: t else (k', v') :: dict_set t k v
  end.

(** Exceptions other than [HTTPException] that the handlers can meet. *)
Inductive exn : Type :=
| AttributeError
| TypeError
| KeyError
| ValueError
| StreamClosed.

Inductive result (A : Type) : Type :=
| Ok (a : A)
| Raise (e : exn).
Arguments Ok {A} a.
Arguments Raise {A} e.

Definition bind {A B} (r : result A) (f : A -> result B) : result B :=
  match r with
  | Ok a => f a
  | Raise e => Raise e
  end.

Notation "x <- r ;; k" := (bind r (fun x => k))
  (at level 61, r at next level, right associativity).

(** [v.get(k, dflt)] on an arbitrary object: only a dict has [get]. *)
Definition py_get (v : json) (k : string) (dflt : json) : result json :=
  match v with
  | JDict d => Ok (dict_get d k dflt)
  | _ => Raise AttributeError
  end.

(** [v[0]] on an object whose truth value is already known to be true. *)
Definition py_index0 (v : json) : result json :=
  match v with
  | JList (x :: _) => Ok x
  | JStr (String c _) => Ok (JStr (String c ""))
  | JDict (_ :: _) => Raise KeyError
  | _ => Raise TypeError
  end.

(** [len(v)] *)
Definition py_len (v : json) : result nat :=
  match v with
  | JStr s => Ok (String.length s)
  | JList l => Ok (List.length l)
  | JDict d => Ok (List.length d)
  | _ => Raise TypeError
  end.

(** [v[i:j]]; a dict cannot be sliced (the exception is a [TypeError]
    up to Python 3.11). *)
Definition py_slice (v : json) (i j : nat) : result json :=
  match v with
  | JStr s => Ok (JStr (str_slice s i j))
  | JList l => Ok (JList (list_slice l i j))
  | _ => Raise TypeError
  end.

(** *** [repr] and [str] *)

Definition Z_to_string (z : Z) : string := NilEmpty.string_of_int (Z.to_int z).

Definition hex_digit (n : nat) : ascii :=
  match get n "0123456789abcdef" with Some c => c | None => "0"%char end.

Definition hex2 (n : nat) : string :=
  String (hex_digit (n / 16)) (String (hex_digit (n mod 16)) "").

Definition is_printable (n : nat) : bool :=
  (((32 <=? n) && (n <? 127)) || ((161 <=? n) && negb (n =? 173)))%nat.

Definition repr_char (quote c : ascii) : string :=
  let n := nat_of_ascii c in
  if (c =? quote)%char || (c =? backslash)%char then String backslash (String c "")
  else if (n =? 9)%nat then String backslash "t"
  else if (n =? 10)%nat then String backslash "n"
  else if (n =? 13)%nat then String backslash "r"
  else if is_printable n then String c ""
  else String backslash ("x" ++ hex2 n).

Fixpoint escape_with (f : ascii -> string) (s : string) : string :=
  match s with
  | EmptyString => EmptyString
  | String c t => f c ++ escape_with f t
  end.

(** [repr(s)] of a string: single quotes, unless the string holds a single
    quote and no double quote. *)
Definition str_repr (s : string) : string :=
  let quote :=
    if contains (String squote "") s && negb (contains (String dquote "") s)
    then dquote else squote in
  String quote (escape_with (repr_char quote) s ++ String quote "").

Definition join_with (sep : string) (l : list string) : string :=
  String.concat sep l.

(** [repr(v)], which is also [str(v)] and [f"{v}"] for a dict or a list. *)
Fixpoint repr (v : json) : string :=
  match v with
  | JNull => "None"
  | JBool true => "True"
  | JBool false => "False"
  | JInt z => Z_to_string z
  | JFloat r => r
  | JStr s => str_repr s
  | JList l => "[" ++ join_with ", " (map repr l) ++ "]"
  | JDict d =>
      "{" ++ join_with ", "
               (map (fun kv => str_repr (fst kv) ++ ": " ++ repr (snd kv)) d)
          ++ "}"
  end.

(** *** [json.dumps(v, allow_nan=False)] *)

(** The floats that are not finite, by their [repr]. *)
Definition nonfinite (r : string) : bool :=
  (r =? "inf") || (r =? "-inf") || (r =? "nan").

(** Whether [json.dumps(v, allow_nan=False)] returns: it raises a
    [ValueError] as soon as [v] holds a float that is not finite. *)
Fixpoint encodable (v : json) : bool :=
  match v with
  | JFloat r => negb (nonfinite r)
  | JList l => forallb encodable l
  | JDict d => forallb (fun kv => encodable (snd kv)) d
  | _ => true
  end.

(** [f"{v}"]: [str(v)]; a string formats as itself. *)
Definition format (v : json) : string :=
  match v with
  | JStr s => s
  | _ => repr v
  end.

End Py.

(** ** The gateway *)

Module Gateway.
Import Py.

(** *** Environment, upstream and responses *)

Definition environ := list (string * string).

(** [os.getenv(k, d)] *)
Definition getenv (env : environ) (k d : string) : string :=
  match lookup k env with Some v => v | None => d end.

Definition header_map := list (string * string).

(** What is handed to [client.post] / [client.stream]: [json=] or
    [content=]. *)
Inductive payload : Type :=
| JsonPayload (j : json)
| RawPayload (b : string).

Record request : Type := mk_request {
  req_url : string;
  req_payload : payload;
  req_headers : header_map
}.

(** What the handlers read from an httpx response: [status_code], [text],
    [json()] ([None] when the body is not JSON, so that [json()] raises),
    [content], [aread().decode("utf-8", errors="ignore")],
    [headers.get("content-type")] and the chunks [aiter_bytes()] gives
    while the response is open. *)
Record response : Type := mk_response {
  status_code : Z;
  text : string;
  json_body : option json;
  content : string;
  aread_utf8 : string;
  content_type : option string;
  aiter_bytes : list string
}.

(** The outbound call either fails in transport ([httpx.RequestError], with
    its message), yields a response, or raises another exception (a
    [ValueError] when httpx cannot encode a [json=] body that holds a float
    that is not finite, in which case nothing is sent). *)
Inductive reply : Type :=
| RequestError (msg : string)
| Reply (r : response)
| OtherError (e : exn).

Definition upstream := request -> reply.

(** A generator run to its end: the frames it yields, and the exception
    that stops it, if any. *)
Record generated : Type := mk_generated {
  frames : list string;
  failure : option exn
}.

Definition gen (A : Type) : Type := (list string * result A)%type.

Definition gret {A} (a : A) : gen A := ([], Ok a).
Definition yield (f : string) : gen unit := ([f], Ok tt).
Definition graise {A} (e : exn) : gen A := ([], Raise e).
Definition glift {A} (r : result A) : gen A := ([], r).

Definition gbind {A B} (g : gen A) (k : A -> gen B) : gen B :=
  match g with
  | (w, Ok a) => let (w', r) := k a in ((w ++ w')%list, r)
  | (w, Raise e) => (w, Raise e)
  end.

Notation "x <~ g ;; k" := (gbind g (fun x => k))
  (at level 61, g at next level, right associativity).
Notation "g ;;; k" := (gbind g (fun _ => k))
  (at level 61, right associativity).

(** [for x in l: body(x)] inside a generator. *)
Fixpoint for_each {A} (l : list A) (body : A -> gen unit) : gen unit :=
  match l with
  | [] => gret tt
  | x :: t => body x ;;; for_each t body
  end.

Definition run_gen (g : gen unit) : generated :=
  mk_generated (fst g) (match snd g with Ok _ => None | Raise e => Some e end).

(** What a handler ends with. *)
Inductive outcome : Type :=
| HTTPException (status : Z) (detail : string)
| JSONResponse (status : Z) (body : json)
| StreamingResponse (status : Z) (media_type : string) (body : generated)
| Unhandled (e : exn)
| UnhandledRequestError (msg : string).

(** [JSONResponse(status_code=status, content=body)]: Starlette renders the
    body when the response is built, with [allow_nan=False], so the
    constructor raises a [ValueError] for a body that cannot be encoded. *)
Definition json_response (status : Z) (body : json) : outcome :=
  if encodable body then JSONResponse status body else Unhandled ValueError.

(** FastAPI's rendering of an outcome: an [HTTPException] is answered with
    its status code and the JSON object [{"detail": detail}]; an exception
    that is not an [HTTPException] is answered with status 500. *)
Inductive http_body : Type :=
| BodyJSON (j : json)
| BodyStream (g : generated)
| BodyText (s : string).

Definition http_status (o : outcome) : Z :=
  match o with
  | HTTPException s _ => s
  | JSONResponse s _ => s
  | StreamingResponse s _ _ => s
  | Unhandled _ => 500
  | UnhandledRequestError _ => 500
  end.

Definition http_content (o : outcome) : http_body :=
  match o with
  | HTTPException _ d => BodyJSON (JDict [("detail", JStr d)])
  | JSONResponse _ j => BodyJSON j
  | StreamingResponse _ _ g => BodyStream g
  | Unhandled _ => BodyText "Internal Server Error"
  | UnhandledRequestError _ => BodyText "Internal Server Error"
  end.

(** *** [_get_upstream_config] *)

Definition e_acute : string := chr 233.
Definition a_acute : string := chr 225.

(** Lines 14-25: the first configured URL, in the order prediction,
    chat-completions, base; [None] stands for the [RuntimeError] of the
    final [else]. *)
Definition select_upstream_url (env : environ) : option string :=
  let predict_url := rstrip "/" (getenv env "UPSTREAM_PREDICT_URL" "") in
  let completions_url := rstrip "/" (getenv env "UPSTREAM_CHAT_COMPLETIONS_URL" "") in
  let base_url := rstrip "/" (getenv env "UPSTREAM_API_BASE_URL" "") in
  if negb (predict_url =? "") then Some predict_url
  else if negb (completions_url =? "") then Some completions_url
  else if negb (base_url =? "") then Some (base_url ++ "/v1/chat/completions")
  else None.

(** The test of lines 27, 193 and 225. *)
Definition is_local (u : string) : bool :=
  contains "localhost" u || contains "127.0.0.1" u.

(** Lines 30-48: the headers for the configured authentication mode, or the
    message of the [RuntimeError]. *)
Definition auth_headers (env : environ) : string + header_map :=
  let auth_mode := lower (getenv env "UPSTREAM_AUTH" "bearer") in
  let headers := [("Content-Type", "application/json")] in
  if auth_mode =? "bearer" then
    let api_key := getenv env "UPSTREAM_API_KEY" "" in
    if api_key =? "" then
      inl ("UPSTREAM_API_KEY " ++ e_acute ++ " obrigat" ++ chr 243
             ++ "rio para UPSTREAM_AUTH=bearer")
    else inr (dict_set headers "Authorization" ("Bearer " ++ api_key))
  else if auth_mode =? "gcloud" then
    let token := getenv env "GOOGLE_ACCESS_TOKEN" "" in
    if token =? "" then
      inl ("GOOGLE_ACCESS_TOKEN " ++ e_acute ++ " obrigat" ++ chr 243
             ++ "rio para UPSTREAM_AUTH=gcloud")
    else inr (dict_set headers "Authorization" ("Bearer " ++ token))
  else if auth_mode =? "none" then inr headers
  else inl ("UPSTREAM_AUTH inv" ++ a_acute ++ "lido: " ++ auth_mode).

(** The whole resolver: [inl msg] is [raise RuntimeError(msg)]. *)
Definition _get_upstream_config (env : environ) : string + (string * header_map) :=
  match select_upstream_url env with
  | None => inl "Configure UPSTREAM_PREDICT_URL ou UPSTREAM_CHAT_COMPLETIONS_URL"
  | Some upstream_url =>
      if is_local upstream_url then inl "PROIBIDO LOCALHOST em upstream"
      else
        match auth_headers env with
        | inl msg => inl msg
        | inr headers => inr (upstream_url, headers)
        end
  end.

(** *** [GET /healthz] and [GET /v1/models] *)

Definition healthz : json := JDict [("status", JStr "ok")].

Definition default_model (env : environ) : string :=
  getenv env "UPSTREAM_DEFAULT_MODEL" "openai/gpt-oss-120b-maas".

Definition list_models (env : environ) : json :=
  JDict [("object", JStr "list");
         ("data", JList [JDict [("id", JStr (default_model env));
                                ("object", JStr "model")]])].

(** *** [POST /v1/chat/completions] *)

(** Lines 77-78: [if not body.get("model"): body["model"] = default]. *)
Definition inject_default_model (env : environ) (body : dict) : dict :=
  if negb (truthy (dict_get body "model" JNull))
  then dict_set body "model" (JStr (default_model env))
  else body.

(** Lines 85-93: the prediction envelope. *)
Definition predict_payload (body : dict) : json :=
  let instance :=
    [("@requestFormat", JStr "chatCompletions");
     ("messages", dict_get body "messages" (JList []))] in
  let instance :=
    if dict_mem "max_tokens" body
    then dict_set instance "max_tokens" (dict_get body "max_tokens" JNull)
    else instance in
  let instance :=
    if dict_mem "temperature" body
    then dict_set instance "temperature" (dict_get body "temperature" JNull)
    else instance in
  JDict [("instances", JList [JDict instance])].

(** The three event dictionaries of [sse_iter] share their shape. *)
Definition chunk_event (oid model : json) (delta : dict) (finish_reason : json)
  : json :=
  JDict [("id", py_or oid (JStr "chatcmpl"));
         ("object", JStr "chat.completion.chunk");
         ("model", model);
         ("choices",
          JList [JDict [("index", JInt 0);
                        ("delta", JDict delta);
                        ("finish_reason", finish_reason)]])].

(** [f"data: {event}\n\n"] *)
Definition sse_frame (event : json) : string :=
  "data: " ++ format event ++ LF ++ LF.

Definition done_frame : string := "data: [DONE]" ++ LF ++ LF.

(** [n or 1] on an int. *)
Definition nat_or (n d : nat) : nat := if (n =? 0)%nat then d else n.

(** [max(20, len(content) // 20 or 1)] *)
Definition chunk_size_of (len : nat) : nat := Nat.max 20 (nat_or (len / 20) 1).

(** Lines 116-150. *)
Definition sse_iter (oid model choices content : json) : gen unit :=
  let first_event := chunk_event oid model [("role", JStr "assistant")] JNull in
  yield (sse_frame first_event) ;;;
  len <~ glift (py_len content) ;;
  let chunk_size := chunk_size_of len in
  for_each (range 0 len chunk_size) (fun i =>
    piece <~ glift (py_slice content i (i + chunk_size)) ;;
    let event := chunk_event oid model [("content", piece)] JNull in
    yield (sse_frame event)) ;;;
  choice0 <~ glift (py_index0 choices) ;;
  finish_reason <~ glift (py_get choice0 "finish_reason" JNull) ;;
  let done_event :=
    chunk_event oid model [] (py_or finish_reason (JStr "stop")) in
  yield (sse_frame done_event) ;;;
  yield done_frame.

(** Lines 155-162: the non-streamed answer. *)
Definition openai_completion (oid created model choices usage : json) : json :=
  JDict [("id", py_or oid (JStr "chatcmpl"));
         ("object", JStr "chat.completion");
         ("created", created);
         ("model", model);
         ("choices", choices);
         ("usage", usage)].

Definition of_result (r : result outcome) : outcome :=
  match r with
  | Ok o => o
  | Raise e => Unhandled e
  end.

(** Lines 102-105: the [predictions] field, a list giving its first
    element. *)
Definition predictions_of (vertex : json) : result json :=
  pred <- py_get vertex "predictions" JNull ;;
  let pred := py_or pred (JDict []) in
  match pred with
  | JList (first :: _) => Ok first
  | _ => Ok pred
  end.

(** Lines 100-163: from the parsed prediction response to the answer. *)
Definition translate_prediction (body : dict) (vertex : json) : outcome :=
  of_result (
    pred <- predictions_of vertex ;;
    choices <- py_get pred "choices" JNull ;;
    let choices := py_or choices (JList []) in
    created <- py_get pred "created" JNull ;;
    oid <- py_get pred "id" JNull ;;
    model <- py_get pred "model" JNull ;;
    let model := py_or model (dict_get body "model" JNull) in
    usage <- py_get pred "usage" JNull ;;
    let usage := py_or usage (JDict []) in
    if truthy (dict_get body "stream" JNull) && truthy choices then
      choice0 <- py_index0 choices ;;
      message <- py_get choice0 "message" (JDict []) ;;
      content <- py_get message "content" (JStr "") ;;
      Ok (StreamingResponse 200 "text/event-stream"
            (run_gen (sse_iter oid model choices content)))
    else
      Ok (json_response 200 (openai_completion oid created model choices usage))).

(** Lines 84-163: the prediction-style branch. *)
Definition chat_predict (predict_url : string) (headers : header_map)
  (body : dict) (call : upstream) : outcome :=
  let payload := predict_payload body in
  match call (mk_request predict_url (JsonPayload payload) headers) with
  | RequestError e => HTTPException 502 ("Erro ao conectar ao upstream: " ++ e)
  | Reply resp =>
      if (status_code resp >=? 400)%Z then
        HTTPException (status_code resp) (text resp)
      else
        match json_body resp with
        | None => Unhandled ValueError
        | Some vertex => translate_prediction body vertex
        end
  | OtherError e => Unhandled e
  end.

(** Lines 165-183: the chat-completions-style branch.  In the streamed
    mode the [StreamingResponse] is returned from inside
    [async with client.stream(...)], which closes the upstream response on
    the way out: when the body is iterated afterwards, [resp.aiter_bytes()]
    raises [StreamClosed] before any chunk. *)
Definition chat_passthrough (upstream_url : string) (headers : header_map)
  (body : dict) (call : upstream) : outcome :=
  let req := mk_request upstream_url (JsonPayload (JDict body)) headers in
  if truthy (dict_get body "stream" JNull) then
    match call req with
    | RequestError e => HTTPException 502 ("Erro ao conectar ao upstream: " ++ e)
    | Reply resp =>
        if (status_code resp >=? 400)%Z then
          HTTPException (status_code resp) (aread_utf8 resp)
        else
          let media_type :=
            match content_type resp with
            | Some t => t
            | None => "application/json"
            end in
          StreamingResponse (status_code resp) media_type
            (mk_generated [] (Some StreamClosed))
    | OtherError e => Unhandled e
    end
  else
    match call req with
    | RequestError e => HTTPException 502 ("Erro ao conectar ao upstream: " ++ e)
    | Reply resp =>
        if (status_code resp >=? 400)%Z then
          HTTPException (status_code resp) (text resp)
        else
          match json_body resp with
          | None => Unhandled ValueError
          | Some j => json_response (status_code resp) j
          end
    | OtherError e => Unhandled e
    end.

(** Lines 70-185.  [body] is what [await request.json()] returned. *)
Definition chat_completions (env : environ) (body : json) (call : upstream)
  : outcome :=
  match _get_upstream_config env with
  | inl e => HTTPException 503 e
  | inr (base_url, headers) =>
      match body with
      | JDict body =>
          let body := inject_default_model env body in
          let upstream_url := base_url in
          let predict_url := rstrip "/" (getenv env "UPSTREAM_PREDICT_URL" "") in
          if negb (predict_url =? "")
          then chat_predict predict_url headers body call
          else chat_passthrough upstream_url headers body call
      | _ => Unhandled AttributeError
      end
  end.

(** *** [POST /vertex/predict] *)

(** Lines 196-207: [inl msg] is [raise HTTPException(503, msg)]. *)
Definition vertex_auth_headers (env : environ) : string + header_map :=
  let auth_mode := lower (getenv env "UPSTREAM_AUTH" "gcloud") in
  let headers := [("Content-Type", "application/json")] in
  if auth_mode =? "gcloud" then
    let token := getenv env "GOOGLE_ACCESS_TOKEN" "" in
    if token =? "" then
      inl ("GOOGLE_ACCESS_TOKEN " ++ e_acute ++ " obrigat" ++ chr 243
             ++ "rio para UPSTREAM_AUTH=gcloud")
    else inr (dict_set headers "Authorization" ("Bearer " ++ token))
  else if auth_mode =? "bearer" then
    let key := getenv env "UPSTREAM_API_KEY" "" in
    if key =? "" then
      inl ("UPSTREAM_API_KEY " ++ e_acute ++ " obrigat" ++ chr 243
             ++ "rio para UPSTREAM_AUTH=bearer")
    else inr (dict_set headers "Authorization" ("Bearer " ++ key))
  else inr headers.

(** Lines 189-217. *)
Definition vertex_predict_passthrough (env : environ) (payload : json)
  (call : upstream) : outcome :=
  let predict_url := rstrip "/" (getenv env "UPSTREAM_PREDICT_URL" "") in
  if predict_url =? "" then HTTPException 503 "Defina UPSTREAM_PREDICT_URL"
  else if is_local predict_url then
    HTTPException 400 "PROIBIDO LOCALHOST em UPSTREAM_PREDICT_URL"
  else
    match vertex_auth_headers env with
    | inl msg => HTTPException 503 msg
    | inr headers =>
        match call (mk_request predict_url (JsonPayload payload) headers) with
        | RequestError e => HTTPException 502 ("Erro ao conectar ao Vertex: " ++ e)
        | Reply resp =>
            if (status_code resp >=? 400)%Z then
              HTTPException (status_code resp) (text resp)
            else
              match json_body resp with
              | None => Unhandled ValueError
              | Some j => json_response (status_code resp) j
              end
        | OtherError e => Unhandled e
        end
    end.

(** *** [POST /tools/{name}/invoke] *)

(** Lines 221-232; this handler has no [except] for a transport failure. *)
Definition toolbox_invoke (env : environ) (name payload : string)
  (call : upstream) : outcome :=
  let base := rstrip "/" (getenv env "GENAI_TOOLBOX_URL" "") in
  if base =? "" then HTTPException 503 "Defina GENAI_TOOLBOX_URL"
  else if is_local base then
    HTTPException 400 "PROIBIDO LOCALHOST em GENAI_TOOLBOX_URL"
  else
    let url := base ++ "/api/tool/" ++ name ++ "/invoke" in
    match call (mk_request url (RawPayload payload)
                  [("Content-Type", "application/json")]) with
    | RequestError e => UnhandledRequestError e
    | Reply resp =>
        if negb (content resp =? "") then
          match json_body resp with
          | None => Unhandled ValueError
          | Some j => json_response (status_code resp) j
          end
        else json_response (status_code resp) (JDict [])
    | OtherError e => Unhandled e
    end.

End Gateway.

(** ** Notions used to state the properties *)

Module Notions.
Import Py Gateway.

(** The suffix of a string from position [i]. *)
Fixpoint drop (i : nat) (s : string) : string :=
  match i, s with
  | O, _ => s
  | S _, EmptyString => EmptyString
  | S i', String _ t => drop i' t
  end.

(** [ceil(L/S)] written with the floor division of [nat]. *)
Definition ceil_div (L S : nat) : nat := (L + S - 1) / S.

(** The finish reason of the terminal chunk: the source choice's, or
    ["stop"] when the choice has none (missing, null or empty). *)
Definition terminal_finish_reason (choice0 : dict) : json :=
  match lookup "finish_reason" choice0 with
  | Some v => if truthy v then v else JStr "stop"
  | None => JStr "stop"
  end.

(** The slices [sse_iter] cuts a string content into. *)
Definition content_slices (s : string) : list string :=
  let S := chunk_size_of (String.length s) in
  map (fun i => str_slice s i (i + S)) (range 0 (String.length s) S).

(** The JSON serialization of a document, as [json.dumps] writes it:
    double-quoted strings, [null], [true] and [false]. *)
Definition json_escape_char (c : ascii) : string :=
  let n := nat_of_ascii c in
  if (c =? dquote)%char || (c =? backslash)%char then String backslash (String c "")
  else if (n =? 8)%nat then String backslash "b"
  else if (n =? 9)%nat then String backslash "t"
  else if (n =? 10)%nat then String backslash "n"
  else if (n =? 12)%nat then String backslash "f"
  else if (n =? 13)%nat then String backslash "r"
  else if ((32 <=? n) && (n <? 127))%nat then String c ""
  else String backslash ("u00" ++ hex2 n).

Definition json_string (s : string) : string :=
  String dquote (escape_with json_escape_char s ++ String dquote "").

Fixpoint json_dumps (v : json) : string :=
  match v with
  | JNull => "null"
  | JBool true => "true"
  | JBool false => "false"
  | JInt z => Z_to_string z
  | JFloat r => r
  | JStr s => json_string s
  | JList l => "[" ++ join_with ", " (map json_dumps l) ++ "]"
  | JDict d =>
      "{" ++ join_with ", "
               (map (fun kv => json_string (fst kv) ++ ": " ++ json_dumps (snd kv)) d)
          ++ "}"
  end.

(** The frame the claim describes: ["data: "], the JSON text, two line
    feeds. *)
Definition json_frame (event : json) : string :=
  "data: " ++ json_dumps event ++ LF ++ LF.

(** A configured URL, as the handlers read it, and whether it is set: not
    empty once its trailing slashes are dropped. *)
Definition configured (env : environ) (k : string) : string :=
  rstrip "/" (getenv env k "").

Definition is_set (env : environ) (k : string) : bool :=
  negb (configured env k =? "").

(** A prediction-style configuration and the upstream answer of the
    specification's scenario. *)
Definition env_predict : environ :=
  [("UPSTREAM_PREDICT_URL", "https://vertex.example.com/v1/predict/");
   ("UPSTREAM_AUTH", "none");
   ("UPSTREAM_DEFAULT_MODEL", "demo-model")].

Definition response_of_json (status : Z) (j : json) : response :=
  mk_response status "" (Some j) "" "" None [].

Definition reply_of_json (status : Z) (j : json) : reply :=
  Reply (response_of_json status j).

Definition hello_world_choice : json :=
  JDict [("message", JDict [("content", JStr "hello world")]);
         ("finish_reason", JStr "stop")].

Definition hello_world_reply : reply :=
  reply_of_json 200
    (JDict [("predictions", JDict [("choices", JList [hello_world_choice])])]).

(** A chat-completions-style configuration. *)
Definition env_chat : environ :=
  [("UPSTREAM_CHAT_COMPLETIONS_URL", "https://llm.example.com/v1/chat/completions");
   ("UPSTREAM_AUTH", "none");
   ("UPSTREAM_DEFAULT_MODEL", "demo-model")].

(** An upstream that answers 200 with the JSON body it was sent; httpx
    sends nothing when it cannot encode the body. *)
Definition echo_upstream : upstream :=
  fun req =>
    match req_payload req with
    | JsonPayload j =>
        if encodable j then reply_of_json 200 j else OtherError ValueError
    | RawPayload b => Reply (mk_response 200 b None b b None [])
    end.

(** An upstream that answers with a status and a plain-text body. *)
Definition text_upstream (status : Z) (body : string) : upstream :=
  fun _ => Reply (mk_response status body None body body None [body]).

(** The last character of a string, and a run of [n] slashes. *)
Fixpoint last_char (s : string) : option ascii :=
  match s with
  | EmptyString => None
  | String c EmptyString => Some c
  | String _ t => last_char t
  end.

Fixpoint slashes (n : nat) : string :=
  match n with
  | O => EmptyString
  | S n' => String "/" (slashes n')
  end.

(** Whether [len(v)] is defined, and whether [v] is a JSON object. *)
Definition has_len (v : json) : bool :=
  match v with
  | JStr _ | JList _ | JDict _ => true
  | _ => false
  end.

Definition is_object (v : json) : bool :=
  match v with
  | JDict _ => true
  | _ => false
  end.

(** The slices [sse_iter] cuts a list content into. *)
Definition content_list_slices (l : list json) : list (list json) :=
  let S := chunk_size_of (List.length l) in
  map (fun i => list_slice l i (i + S)) (range 0 (List.length l) S).

(** The keys an instance of the prediction envelope may carry. *)
Definition instance_keys : list string :=
  ["@requestFormat"; "messages"; "max_tokens"; "temperature"].

End Notions.

(** ** Properties *)

Module Facts.
Import Py Gateway Notions.

(** *** Strings and slices *)

Section Slices.

Lemma substring_drop i n s : substring i n s = substring 0 n (drop i s).
Proof.
  revert i; induction s as [|c t IH]; intros [|i]; simpl; auto.
  destruct n; reflexivity.
Qed.

Lemma take_drop n s : substring 0 n s ++ drop n s = s.
Proof.
  revert s; induction n as [|n IH]; intros [|c t]; simpl; auto.
  now rewrite IH.
Qed.

Lemma drop_drop n i s : drop n (drop i s) = drop (i + n) s.
Proof.
  revert s; induction i as [|i IH]; intros s; simpl; auto.
  destruct s; simpl; auto. now destruct n.
Qed.

Lemma drop_all i s : String.length s <= i -> drop i s = "".
Proof.
  revert s; induction i as [|i IH]; intros [|c t]; simpl; auto; try lia.
  intros H; apply IH; lia.
Qed.

Lemma drop_length i s : String.length (drop i s) = String.length s - i.
Proof.
  revert s; induction i as [|i IH]; intros [|c t]; simpl; auto.
Qed.

Lemma take_length n s :
  String.length (substring 0 n s) = Nat.min n (String.length s).
Proof.
  revert s; induction n as [|n IH]; intros [|c t]; simpl; auto.
Qed.

Lemma str_slice_length s i n :
  String.length (str_slice s i (i + n)) = Nat.min n (String.length s - i).
Proof.
  unfold str_slice. replace (i + n - i) with n by lia.
  now rewrite substring_drop, take_length, drop_length.
Qed.

Lemma concat_cons (x : string) (l : list string) :
  String.concat "" (x :: l) = x ++ String.concat "" l.
Proof.
  destruct l; simpl; auto.
  induction x; simpl; auto. now f_equal.
Qed.

End Slices.

(** *** [range] *)

Section Range.

Variables (stop step : nat).
Hypothesis step_pos : 1 <= step.

Lemma range_from_length fuel i :
  stop - i <= fuel ->
  List.length (range_from fuel i stop step) = (stop - i + step - 1) / step.
Proof.
  revert i; induction fuel as [|fuel IH]; intros i Hf; simpl.
  - replace (stop - i + step - 1) with (step - 1) by lia.
    symmetry; apply Nat.div_small; lia.
  - destruct (Nat.ltb_spec i stop) as [Hlt|Hge].
    + simpl. rewrite IH by lia.
      destruct (Nat.le_gt_cases step (stop - i)) as [Hs|Hs].
      * replace (stop - i + step - 1) with ((stop - (i + step) + step - 1) + 1 * step) by lia.
        rewrite Nat.div_add by lia. lia.
      * replace (stop - (i + step) + step - 1) with (step - 1) by lia.
        rewrite (Nat.div_small (step - 1)) by lia.
        apply (Nat.div_unique _ _ 1 (stop - i - 1)); lia.
    + replace (stop - i + step - 1) with (step - 1) by lia.
      symmetry; apply Nat.div_small; lia.
Qed.

Lemma range_from_bound fuel i :
  Forall (fun j => j < stop) (range_from fuel i stop step).
Proof.
  revert i; induction fuel as [|fuel IH]; intros i; simpl; auto.
  destruct (Nat.ltb_spec i stop); auto.
Qed.

Lemma range_length :
  List.length (range 0 stop step) = (stop + step - 1) / step.
Proof.
  unfold range. rewrite range_from_length by lia. f_equal; lia.
Qed.

End Range.

(** The slices taken at the positions of [range] rebuild the string. *)
Lemma slices_concat s step fuel i :
  1 <= step ->
  String.length s - i <= fuel ->
  String.concat ""
    (map (fun j => str_slice s j (j + step))
         (range_from fuel i (String.length s) step)) = drop i s.
Proof.
  intros Hstep. revert i; induction fuel as [|fuel IH]; intros i Hf; simpl.
  - symmetry; apply drop_all; lia.
  - destruct (Nat.ltb_spec i (String.length s)) as [Hlt|Hge].
    + cbn [map]. rewrite concat_cons, IH by lia.
      unfold str_slice. replace (i + step - i) with step by lia.
      rewrite substring_drop, <- drop_drop. apply take_drop.
    + symmetry; apply drop_all; lia.
Qed.

(** *** Generators *)

Lemma for_each_yield {A} (l : list A) (body : A -> gen unit) (f : A -> string) :
  (forall x, body x = ([f x], Ok tt)) ->
  for_each l body = (map f l, Ok tt).
Proof.
  intros Hb. induction l as [|x t IH]; simpl; auto.
  unfold gbind. now rewrite Hb, IH.
Qed.

Lemma ceil_div_spec L S :
  1 <= S -> L <= ceil_div L S * S /\ ceil_div L S * S < L + S.
Proof.
  intros HS. unfold ceil_div.
  pose proof (Nat.div_mod_eq (L + S - 1) S) as E.
  pose proof (Nat.mod_upper_bound (L + S - 1) S) as B.
  split; nia.
Qed.

Lemma chunk_size_of_spec len :
  chunk_size_of len = Nat.max 20 (len / 20) /\ 20 <= chunk_size_of len.
Proof.
  unfold chunk_size_of, nat_or.
  destruct (Nat.eqb_spec (len / 20) 0); lia.
Qed.

Lemma sse_iter_string oid model choice0 rest s :
  sse_iter oid model (JList (JDict choice0 :: rest)) (JStr s) =
  (sse_frame (chunk_event oid model [("role", JStr "assistant")] JNull)
     :: map (fun p => sse_frame (chunk_event oid model [("content", JStr p)] JNull))
            (content_slices s)
     ++ [sse_frame (chunk_event oid model [] (terminal_finish_reason choice0));
         done_frame],
   Ok tt).
Proof.
  unfold sse_iter, content_slices.
  cbn [py_len glift gbind yield].
  set (S := chunk_size_of (String.length s)).
  rewrite (for_each_yield _ _
    (fun i => sse_frame (chunk_event oid model
                 [("content", JStr (str_slice s i (i + S)))] JNull)))
    by reflexivity.
  cbn [py_index0 py_get glift gbind yield app].
  rewrite map_map.
  replace (py_or (dict_get choice0 "finish_reason" JNull) (JStr "stop"))
    with (terminal_finish_reason choice0).
  - reflexivity.
  - unfold terminal_finish_reason, py_or, dict_get.
    destruct (lookup "finish_reason" choice0); reflexivity.
Qed.

(** C1, as stated, fails on a finish reason that is present but empty:
    the terminal chunk then carries ["stop"], not the source's value. *)
Lemma C1_empty_finish_reason_counterexample :
  lookup "finish_reason" [("finish_reason", JStr "")] = Some (JStr "") /\
  run_gen (sse_iter (JStr "cmpl-7") (JStr "demo-model")
             (JList [JDict [("finish_reason", JStr "")]])
             (JStr "hi")) =
    mk_generated
      ["data: {'id': 'cmpl-7', 'object': 'chat.completion.chunk', 'model': 'demo-model', 'choices': [{'index': 0, 'delta': {'role': 'assistant'}, 'finish_reason': None}]}" ++ LF ++ LF;
       "data: {'id': 'cmpl-7', 'object': 'chat.completion.chunk', 'model': 'demo-model', 'choices': [{'index': 0, 'delta': {'content': 'hi'}, 'finish_reason': None}]}" ++ LF ++ LF;
       "data: {'id': 'cmpl-7', 'object': 'chat.completion.chunk', 'model': 'demo-model', 'choices': [{'index': 0, 'delta': {}, 'finish_reason': 'stop'}]}" ++ LF ++ LF;
       "data: [DONE]" ++ LF ++ LF]
      None.
Proof. split; [reflexivity|vm_compute; reflexivity]. Qed.

(** C1, amended.  Streaming emulation determinism: for a content string of
    length [L] the slice size is [S = max(20, L // 20 or 1)]; the emulator
    yields one chunk whose delta is the role [assistant] alone, with a
    null finish reason, then exactly [ceil(L/S)] chunks whose delta is one
    slice of the content, the slices being non-empty, at most [S] long and
    concatenating to the content, then one terminal chunk with an empty
    delta whose finish reason is the source choice's, or ["stop"] when
    that is absent or empty, and last the [[DONE]] frame; the generator
    ends without an exception.  Each chunk is written out here as the
    event dictionary and the frame text that carries it; a content of 45
    characters gives the three slices of 20, 20 and 5 characters. *)
Theorem C1_streaming_emulation :
  (forall (oid model : json) (choice0 : dict) (rest : list json) (s : string),
    let L := String.length s in
    let S := Nat.max 20 (nat_or (L / 20) 1) in
    let chunk := fun (delta : dict) (finish_reason : json) =>
      "data: " ++
      repr (JDict [("id", if truthy oid then oid else JStr "chatcmpl");
                   ("object", JStr "chat.completion.chunk");
                   ("model", model);
                   ("choices",
                    JList [JDict [("index", JInt 0);
                                  ("delta", JDict delta);
                                  ("finish_reason", finish_reason)]])])
      ++ LF ++ LF in
    exists pieces : list string,
      run_gen (sse_iter oid model (JList (JDict choice0 :: rest)) (JStr s)) =
        mk_generated
          (chunk [("role", JStr "assistant")] JNull
             :: map (fun p => chunk [("content", JStr p)] JNull) pieces
             ++ [chunk []
                   match lookup "finish_reason" choice0 with
                   | Some v => if truthy v then v else JStr "stop"
                   | None => JStr "stop"
                   end;
                 "data: [DONE]" ++ LF ++ LF])
          None /\
      List.length pieces = ceil_div L S /\
      L <= List.length pieces * S < L + S /\
      String.concat "" pieces = s /\
      Forall (fun p => 1 <= String.length p <= S) pieces) /\
  run_gen (sse_iter (JStr "cmpl-7") (JStr "demo-model")
             (JList [JDict [("finish_reason", JStr "length")]])
             (JStr "The quick brown fox jumps over the lazy dog!!")) =
    mk_generated
      ["data: {'id': 'cmpl-7', 'object': 'chat.completion.chunk', 'model': 'demo-model', 'choices': [{'index': 0, 'delta': {'role': 'assistant'}, 'finish_reason': None}]}" ++ LF ++ LF;
       "data: {'id': 'cmpl-7', 'object': 'chat.completion.chunk', 'model': 'demo-model', 'choices': [{'index': 0, 'delta': {'content': 'The quick brown fox '}, 'finish_reason': None}]}" ++ LF ++ LF;
       "data: {'id': 'cmpl-7', 'object': 'chat.completion.chunk', 'model': 'demo-model', 'choices': [{'index': 0, 'delta': {'content': 'jumps over the lazy '}, 'finish_reason': None}]}" ++ LF ++ LF;
       "data: {'id': 'cmpl-7', 'object': 'chat.completion.chunk', 'model': 'demo-model', 'choices': [{'index': 0, 'delta': {'content': 'dog!!'}, 'finish_reason': None}]}" ++ LF ++ LF;
       "data: {'id': 'cmpl-7', 'object': 'chat.completion.chunk', 'model': 'demo-model', 'choices': [{'index': 0, 'delta': {}, 'finish_reason': 'length'}]}" ++ LF ++ LF;
       "data: [DONE]" ++ LF ++ LF]
      None.
Proof.
  split; [|vm_compute; reflexivity].
  intros oid model choice0 rest s L S chunk.
  change S with (chunk_size_of L) in *.
  clear S. set (S := chunk_size_of L) in *.
  pose proof (chunk_size_of_spec L) as [_ HS]. fold S in HS.
  exists (content_slices s).
  assert (Hlen : List.length (content_slices s) = ceil_div L S).
  { unfold content_slices. rewrite length_map. fold L S.
    apply range_length; lia. }
  split; [|split; [|split; [|split]]].
  - rewrite sse_iter_string. reflexivity.
  - exact Hlen.
  - rewrite Hlen. apply ceil_div_spec; lia.
  - unfold content_slices, range. fold L S.
    unfold L. rewrite slices_concat by (fold L; lia). reflexivity.
  - unfold content_slices. fold L S. apply Forall_map.
    eapply Forall_impl; [|apply range_from_bound].
    intros j Hj. cbv beta. rewrite str_slice_length. unfold L in *. lia.
Qed.

(** The scenario of the specification: "hello world" is one slice. *)
Example sse_iter_hello_world :
  frames (run_gen (sse_iter JNull (JStr "demo-model")
    (JList [JDict [("message", JDict [("content", JStr "hello world")]);
                   ("finish_reason", JStr "stop")]])
    (JStr "hello world"))) =
  [sse_frame (chunk_event JNull (JStr "demo-model") [("role", JStr "assistant")] JNull);
   sse_frame (chunk_event JNull (JStr "demo-model") [("content", JStr "hello world")] JNull);
   sse_frame (chunk_event JNull (JStr "demo-model") [] (JStr "stop"));
   done_frame].
Proof. reflexivity. Qed.

(** *** Frames *)

Lemma event_frame_not_json oid model delta finish_reason :
  sse_frame (chunk_event oid model delta finish_reason) <>
  json_frame (chunk_event oid model delta finish_reason).
Proof.
  intros H. apply (f_equal (get 7)) in H.
  cbn in H. discriminate H.
Qed.

(** C2. The frames of an emulated stream are ["data: "], the Python [str]
    of the event dictionary (single-quoted strings, [None]) and two line
    feeds, which is never the JSON serialization of that event; the stream
    still ends with the [[DONE]] frame, also for an empty content. *)
Theorem C2_frames_are_python_str :
  chat_completions env_predict
    (JDict [("messages", JList [JDict [("role", JStr "user"); ("content", JStr "hi")]]);
            ("stream", JBool true)])
    (fun _ => hello_world_reply) =
  StreamingResponse 200 "text/event-stream"
    (mk_generated
       ["data: {'id': 'chatcmpl', 'object': 'chat.completion.chunk', 'model': 'demo-model', 'choices': [{'index': 0, 'delta': {'role': 'assistant'}, 'finish_reason': None}]}" ++ LF ++ LF;
        "data: {'id': 'chatcmpl', 'object': 'chat.completion.chunk', 'model': 'demo-model', 'choices': [{'index': 0, 'delta': {'content': 'hello world'}, 'finish_reason': None}]}" ++ LF ++ LF;
        "data: {'id': 'chatcmpl', 'object': 'chat.completion.chunk', 'model': 'demo-model', 'choices': [{'index': 0, 'delta': {}, 'finish_reason': 'stop'}]}" ++ LF ++ LF;
        "data: [DONE]" ++ LF ++ LF]
       None) /\
  (forall oid model delta finish_reason,
     sse_frame (chunk_event oid model delta finish_reason) <>
     json_frame (chunk_event oid model delta finish_reason)) /\
  (forall oid model choice0 rest,
     frames (run_gen (sse_iter oid model (JList (JDict choice0 :: rest)) (JStr ""))) =
     [sse_frame (chunk_event oid model [("role", JStr "assistant")] JNull);
      sse_frame (chunk_event oid model [] (terminal_finish_reason choice0));
      "data: [DONE]" ++ LF ++ LF]).
Proof.
  split; [vm_compute; reflexivity|].
  split; [exact event_frame_not_json|].
  intros. rewrite sse_iter_string. reflexivity.
Qed.

(** *** Upstream resolution *)

Lemma select_upstream_url_cases env :
  select_upstream_url env =
  if is_set env "UPSTREAM_PREDICT_URL"
  then Some (configured env "UPSTREAM_PREDICT_URL")
  else if is_set env "UPSTREAM_CHAT_COMPLETIONS_URL"
  then Some (configured env "UPSTREAM_CHAT_COMPLETIONS_URL")
  else if is_set env "UPSTREAM_API_BASE_URL"
  then Some (configured env "UPSTREAM_API_BASE_URL" ++ "/v1/chat/completions")
  else None.
Proof. reflexivity. Qed.

Lemma config_ok_selected env u h :
  _get_upstream_config env = inr (u, h) ->
  select_upstream_url env = Some u /\ is_local u = false /\ auth_headers env = inr h.
Proof.
  unfold _get_upstream_config.
  destruct (select_upstream_url env) as [u'|]; [|discriminate].
  destruct (is_local u') eqn:El; [discriminate|].
  destruct (auth_headers env) as [m|h']; [discriminate|].
  intros H; inversion H; subst; auto.
Qed.

(** C3. Upstream resolution: a set prediction URL is selected whatever the
    other two are; otherwise a set chat-completions URL; otherwise the set
    base URL joined with [/v1/chat/completions]; so with exactly one of
    the three set, that one is selected.  With none set the resolver
    raises, and the chat endpoint answers 503.  The resolver returns the
    selected URL whenever it returns. *)
Theorem C3_upstream_resolution :
  forall env : environ,
    (is_set env "UPSTREAM_PREDICT_URL" = true ->
     select_upstream_url env = Some (configured env "UPSTREAM_PREDICT_URL")) /\
    (is_set env "UPSTREAM_PREDICT_URL" = false ->
     is_set env "UPSTREAM_CHAT_COMPLETIONS_URL" = true ->
     select_upstream_url env = Some (configured env "UPSTREAM_CHAT_COMPLETIONS_URL")) /\
    (is_set env "UPSTREAM_PREDICT_URL" = false ->
     is_set env "UPSTREAM_CHAT_COMPLETIONS_URL" = false ->
     is_set env "UPSTREAM_API_BASE_URL" = true ->
     select_upstream_url env =
       Some (configured env "UPSTREAM_API_BASE_URL" ++ "/v1/chat/completions")) /\
    (is_set env "UPSTREAM_PREDICT_URL" = false ->
     is_set env "UPSTREAM_CHAT_COMPLETIONS_URL" = false ->
     is_set env "UPSTREAM_API_BASE_URL" = false ->
     _get_upstream_config env =
       inl "Configure UPSTREAM_PREDICT_URL ou UPSTREAM_CHAT_COMPLETIONS_URL" /\
     forall body call,
       chat_completions env body call =
       HTTPException 503 "Configure UPSTREAM_PREDICT_URL ou UPSTREAM_CHAT_COMPLETIONS_URL") /\
    (forall u h, _get_upstream_config env = inr (u, h) ->
                 select_upstream_url env = Some u) /\
    (forall u h, select_upstream_url env = Some u -> is_local u = false ->
                 auth_headers env = inr h ->
                 _get_upstream_config env = inr (u, h)).
Proof.
  intros env. rewrite select_upstream_url_cases.
  repeat match goal with |- _ /\ _ => split end.
  - now intros ->.
  - now intros -> ->.
  - now intros -> -> ->.
  - intros Hp Hc Hb.
    assert (E : _get_upstream_config env =
                inl "Configure UPSTREAM_PREDICT_URL ou UPSTREAM_CHAT_COMPLETIONS_URL").
    { unfold _get_upstream_config. rewrite select_upstream_url_cases.
      now rewrite Hp, Hc, Hb. }
    split; [exact E|]. intros body call.
    unfold chat_completions. now rewrite E.
  - intros u h H. apply config_ok_selected in H as [H _].
    now rewrite <- select_upstream_url_cases.
  - intros u h Hs Hl Ha. unfold _get_upstream_config.
    rewrite select_upstream_url_cases, Hs, Hl, Ha. reflexivity.
Qed.

Lemma C3_upstream_resolution_witness :
  select_upstream_url
    [("UPSTREAM_PREDICT_URL", "https://vertex.example.com/predict");
     ("UPSTREAM_CHAT_COMPLETIONS_URL", "https://llm.example.com/v1/chat/completions");
     ("UPSTREAM_API_BASE_URL", "https://api.example.com")]
  = Some "https://vertex.example.com/predict" /\
  select_upstream_url
    [("UPSTREAM_CHAT_COMPLETIONS_URL", "https://llm.example.com/v1/chat/completions");
     ("UPSTREAM_API_BASE_URL", "https://api.example.com")]
  = Some "https://llm.example.com/v1/chat/completions" /\
  select_upstream_url [("UPSTREAM_API_BASE_URL", "https://api.example.com/")]
  = Some "https://api.example.com/v1/chat/completions" /\
  _get_upstream_config [("UPSTREAM_AUTH", "none")]
  = inl "Configure UPSTREAM_PREDICT_URL ou UPSTREAM_CHAT_COMPLETIONS_URL".
Proof.
  split; [|split; [|split]].
  - exact (proj1 (C3_upstream_resolution
      [("UPSTREAM_PREDICT_URL", "https://vertex.example.com/predict");
       ("UPSTREAM_CHAT_COMPLETIONS_URL", "https://llm.example.com/v1/chat/completions");
       ("UPSTREAM_API_BASE_URL", "https://api.example.com")]) eq_refl).
  - exact (proj1 (proj2 (C3_upstream_resolution
      [("UPSTREAM_CHAT_COMPLETIONS_URL", "https://llm.example.com/v1/chat/completions");
       ("UPSTREAM_API_BASE_URL", "https://api.example.com")])) eq_refl eq_refl).
  - exact (proj1 (proj2 (proj2 (C3_upstream_resolution
      [("UPSTREAM_API_BASE_URL", "https://api.example.com/")])))
      eq_refl eq_refl eq_refl).
  - exact (proj1 (proj1 (proj2 (proj2 (proj2 (C3_upstream_resolution
      [("UPSTREAM_AUTH", "none")])))) eq_refl eq_refl eq_refl)).
Defined.

(** *** The loopback policy *)

Lemma is_local_nonempty u : is_local u = true -> (u =? "") = false.
Proof. destruct u; [discriminate|reflexivity]. Qed.

(** C4, as stated, fails on the status: the prediction passthrough and
    the tool passthrough refuse a URL that holds [localhost] or
    [127.0.0.1] with status 400, not 503. *)
Lemma C4_loopback_counterexample :
  is_local "http://localhost:8080/predict" = true /\
  vertex_predict_passthrough
    [("UPSTREAM_PREDICT_URL", "http://localhost:8080/predict");
     ("UPSTREAM_AUTH", "none")]
    (JDict [("instances", JList [])]) (fun _ => hello_world_reply)
  = HTTPException 400 "PROIBIDO LOCALHOST em UPSTREAM_PREDICT_URL" /\
  http_status
    (vertex_predict_passthrough
       [("UPSTREAM_PREDICT_URL", "http://localhost:8080/predict");
        ("UPSTREAM_AUTH", "none")]
       (JDict [("instances", JList [])]) (fun _ => hello_world_reply))
  <> 503%Z /\
  is_local "http://127.0.0.1:5000" = true /\
  toolbox_invoke [("GENAI_TOOLBOX_URL", "http://127.0.0.1:5000/")]
    "search" "{}" (fun _ => hello_world_reply)
  = HTTPException 400 "PROIBIDO LOCALHOST em GENAI_TOOLBOX_URL".
Proof.
  split; [reflexivity|]. split; [reflexivity|].
  split; [discriminate|]. split; reflexivity.
Qed.

(** C4, amended.  When the selected URL holds [localhost] or [127.0.0.1],
    the resolver raises and the chat endpoint answers 503; the prediction
    passthrough and the tool passthrough answer 400 when their own URL
    holds one of them. *)
Theorem C4_loopback_policy :
  forall env : environ,
    (forall u, select_upstream_url env = Some u -> is_local u = true ->
       _get_upstream_config env = inl "PROIBIDO LOCALHOST em upstream" /\
       forall body call,
         chat_completions env body call =
           HTTPException 503 "PROIBIDO LOCALHOST em upstream" /\
         http_status (chat_completions env body call) = 503%Z) /\
    (is_local (configured env "UPSTREAM_PREDICT_URL") = true ->
       forall payload call,
         vertex_predict_passthrough env payload call =
           HTTPException 400 "PROIBIDO LOCALHOST em UPSTREAM_PREDICT_URL") /\
    (is_local (configured env "GENAI_TOOLBOX_URL") = true ->
       forall name payload call,
         toolbox_invoke env name payload call =
           HTTPException 400 "PROIBIDO LOCALHOST em GENAI_TOOLBOX_URL").
Proof.
  intros env. split; [|split].
  - intros u Hs Hl.
    assert (E : _get_upstream_config env = inl "PROIBIDO LOCALHOST em upstream").
    { unfold _get_upstream_config. now rewrite Hs, Hl. }
    split; [exact E|]. intros body call.
    unfold chat_completions. rewrite E. split; reflexivity.
  - intros Hl payload call. unfold vertex_predict_passthrough.
    fold (configured env "UPSTREAM_PREDICT_URL").
    now rewrite (is_local_nonempty _ Hl), Hl.
  - intros Hl name payload call. unfold toolbox_invoke.
    fold (configured env "GENAI_TOOLBOX_URL").
    now rewrite (is_local_nonempty _ Hl), Hl.
Qed.

Lemma C4_loopback_policy_witness :
  chat_completions
    [("UPSTREAM_API_BASE_URL", "http://127.0.0.1:11434/")] JNull echo_upstream
  = HTTPException 503 "PROIBIDO LOCALHOST em upstream" /\
  vertex_predict_passthrough
    [("UPSTREAM_PREDICT_URL", "http://localhost:8080/predict")] JNull echo_upstream
  = HTTPException 400 "PROIBIDO LOCALHOST em UPSTREAM_PREDICT_URL" /\
  toolbox_invoke
    [("GENAI_TOOLBOX_URL", "http://localhost:5000")] "search" "{}" echo_upstream
  = HTTPException 400 "PROIBIDO LOCALHOST em GENAI_TOOLBOX_URL".
Proof.
  split; [|split].
  - exact (proj1 (proj2 (proj1 (C4_loopback_policy
      [("UPSTREAM_API_BASE_URL", "http://127.0.0.1:11434/")])
      "http://127.0.0.1:11434/v1/chat/completions" eq_refl eq_refl)
      JNull echo_upstream)).
  - exact (proj1 (proj2 (C4_loopback_policy
      [("UPSTREAM_PREDICT_URL", "http://localhost:8080/predict")]))
      eq_refl JNull echo_upstream).
  - exact (proj2 (proj2 (C4_loopback_policy
      [("GENAI_TOOLBOX_URL", "http://localhost:5000")]))
      eq_refl "search" "{}" echo_upstream).
Defined.

(** *** The chat endpoint, branch by branch *)

Section ChatBranches.

Variables (env : environ) (u : string) (h : header_map).
Hypothesis config_ok : _get_upstream_config env = inr (u, h).

Lemma chat_completions_predict b call :
  is_set env "UPSTREAM_PREDICT_URL" = true ->
  u = configured env "UPSTREAM_PREDICT_URL" /\
  chat_completions env (JDict b) call =
    chat_predict u h (inject_default_model env b) call.
Proof.
  intros Hp.
  assert (Hu : u = configured env "UPSTREAM_PREDICT_URL").
  { apply config_ok_selected in config_ok as [Hs _].
    rewrite select_upstream_url_cases, Hp in Hs. now inversion Hs. }
  split; [exact Hu|].
  unfold chat_completions. rewrite config_ok.
  fold (configured env "UPSTREAM_PREDICT_URL").
  fold (is_set env "UPSTREAM_PREDICT_URL"). rewrite Hp, <- Hu. reflexivity.
Qed.

Lemma chat_completions_chat b call :
  is_set env "UPSTREAM_PREDICT_URL" = false ->
  chat_completions env (JDict b) call =
    chat_passthrough u h (inject_default_model env b) call.
Proof.
  intros Hp. unfold chat_completions. rewrite config_ok.
  fold (configured env "UPSTREAM_PREDICT_URL").
  fold (is_set env "UPSTREAM_PREDICT_URL"). now rewrite Hp.
Qed.

End ChatBranches.

Lemma chat_predict_ok u h b call resp vertex :
  call (mk_request u (JsonPayload (predict_payload b)) h) = Reply resp ->
  (status_code resp <? 400)%Z = true ->
  json_body resp = Some vertex ->
  chat_predict u h b call = translate_prediction b vertex.
Proof.
  intros Hc Hs Hj. unfold chat_predict. rewrite Hc, Hj.
  destruct (Z.geb_spec (status_code resp) 400) as [Hge|Hlt]; [|reflexivity].
  apply Z.ltb_lt in Hs. lia.
Qed.


(** With a stream asked for and a first choice that is an object with an
    object message, the answer is the emulated stream. *)
Lemma translate_prediction_stream b vertex pd choice0 rest message :
  predictions_of vertex = Ok (JDict pd) ->
  truthy (dict_get b "stream" JNull) = true ->
  dict_get pd "choices" JNull = JList (JDict choice0 :: rest) ->
  dict_get choice0 "message" (JDict []) = JDict message ->
  translate_prediction b vertex =
    StreamingResponse 200 "text/event-stream"
      (run_gen (sse_iter (dict_get pd "id" JNull)
                  (py_or (dict_get pd "model" JNull) (dict_get b "model" JNull))
                  (JList (JDict choice0 :: rest))
                  (dict_get message "content" (JStr "")))).
Proof.
  intros Hp Hs Hc Hm. unfold translate_prediction. rewrite Hp.
  cbn [bind py_get]. rewrite Hs, Hc.
  cbn [py_or truthy andb py_index0 bind py_get]. rewrite Hm. reflexivity.
Qed.


(** *** Dictionaries *)

Lemma lookup_dict_set_other {A} (d : list (string * A)) k k' v :
  k' <> k -> lookup k' (dict_set d k v) = lookup k' d.
Proof.
  intros Hne. induction d as [|[k0 v0] t IH]; simpl.
  - destruct (String.eqb_spec k k'); congruence.
  - destruct (String.eqb_spec k0 k) as [->|Hk]; simpl.
    + destruct (String.eqb_spec k k'); congruence.
    + now rewrite IH.
Qed.

Lemma lookup_dict_set_same {A} (d : list (string * A)) k v :
  lookup k (dict_set d k v) = Some v.
Proof.
  induction d as [|[k0 v0] t IH]; simpl.
  - now rewrite String.eqb_refl.
  - destruct (String.eqb_spec k0 k) as [->|Hk]; simpl.
    + now rewrite String.eqb_refl.
    + destruct (String.eqb_spec k0 k); congruence.
Qed.

Lemma dict_set_absent {A} (d : list (string * A)) k v :
  lookup k d = None -> dict_set d k v = (d ++ [(k, v)])%list.
Proof.
  induction d as [|[k0 v0] t IH]; simpl; auto.
  destruct (String.eqb_spec k0 k); [discriminate|].
  intros H. now rewrite IH.
Qed.

Lemma inject_default_model_other env b k :
  k <> "model" ->
  lookup k (inject_default_model env b) = lookup k b.
Proof.
  intros Hk. unfold inject_default_model.
  destruct (truthy (dict_get b "model" JNull)); simpl; auto.
  now apply lookup_dict_set_other.
Qed.

Lemma inject_default_model_stream env b :
  dict_get (inject_default_model env b) "stream" JNull = dict_get b "stream" JNull.
Proof.
  unfold dict_get. rewrite inject_default_model_other; [reflexivity|discriminate].
Qed.

(** *** Documents that can be encoded *)







(** *** Response translation *)




(** *** Upstream errors *)

(** C6, as stated, fails on the body: an upstream 404 with the body
    [model not found] is answered with status 404 and the JSON object
    [{"detail": "model not found"}], not with the upstream body itself. *)
Lemma C6_error_body_counterexample :
  let o := chat_completions env_chat
             (JDict [("messages", JList [])])
             (text_upstream 404 "model not found") in
  o = HTTPException 404 "model not found" /\
  http_status o = 404%Z /\
  http_content o = BodyJSON (JDict [("detail", JStr "model not found")]) /\
  http_content o <> BodyText "model not found".
Proof. cbv zeta. repeat split. discriminate. Qed.

(** C6, amended.  When the upstream answers the request of the chat
    endpoint with a status of 400 or more, the handler raises an
    [HTTPException] with that status whose detail is the upstream body
    text, untranslated ([resp.text]; on the streamed chat-completions
    path the body read and decoded as UTF-8); the answer has the upstream
    status and the body [{"detail": <upstream body text>}]. *)
Theorem C6_upstream_error_mirrored :
  forall (env : environ) (u : string) (h : header_map) (b : dict) (resp : response),
    _get_upstream_config env = inr (u, h) ->
    (400 <=? status_code resp)%Z = true ->
    let o := chat_completions env (JDict b) (fun _ => Reply resp) in
    let detail :=
      if is_set env "UPSTREAM_PREDICT_URL" then text resp
      else if truthy (dict_get b "stream" JNull) then aread_utf8 resp
      else text resp in
    o = HTTPException (status_code resp) detail /\
    http_status o = status_code resp /\
    http_content o = BodyJSON (JDict [("detail", JStr detail)]).
Proof.
  intros env u h b resp Hcfg Hst o detail.
  assert (Hge : (status_code resp >=? 400)%Z = true).
  { apply Z.leb_le in Hst. apply Z.geb_le. lia. }
  assert (E : o = HTTPException (status_code resp) detail).
  { unfold o, detail.
    destruct (is_set env "UPSTREAM_PREDICT_URL") eqn:Hp.
    - destruct (chat_completions_predict env u h Hcfg b (fun _ => Reply resp) Hp)
        as [_ ->].
      unfold chat_predict. now rewrite Hge.
    - rewrite (chat_completions_chat env u h Hcfg b _ Hp).
      unfold chat_passthrough. rewrite inject_default_model_stream.
      destruct (truthy (dict_get b "stream" JNull)); now rewrite Hge. }
  rewrite E. repeat split.
Qed.

Lemma C6_upstream_error_mirrored_witness :
  chat_completions env_chat (JDict [("messages", JList [])])
    (fun _ => Reply (mk_response 404 "model not found" None "" "" None []))
  = HTTPException 404 "model not found".
Proof.
  exact (proj1 (C6_upstream_error_mirrored env_chat
    "https://llm.example.com/v1/chat/completions"
    [("Content-Type", "application/json")]
    [("messages", JList [])]
    (mk_response 404 "model not found" None "" "" None [])
    eq_refl eq_refl)).
Defined.

(** *** Unexpected prediction shapes *)


Lemma translate_prediction_outcomes b vertex :
  (exists e, translate_prediction b vertex = Unhandled e) \/
  (exists j, translate_prediction b vertex = JSONResponse 200 j) \/
  (exists g, translate_prediction b vertex =
             StreamingResponse 200 "text/event-stream" g).
Proof.
  unfold translate_prediction, of_result.
  destruct (predictions_of vertex) as [pred|e]; cbn [bind]; [|eauto].
  destruct pred; cbn [py_get bind]; eauto.
  match goal with
  | |- context [if ?c then _ else _] => destruct c
  end.
  - match goal with
    | |- context [py_index0 ?c] => destruct (py_index0 c) as [c0|e]; cbn [bind]; [|eauto]
    end.
    destruct c0; cbn [py_get bind]; eauto.
    match goal with
    | |- context [dict_get ?d "message" ?x] =>
        destruct (dict_get d "message" x); cbn [py_get bind]; eauto
    end.
  - unfold json_response.
    match goal with
    | |- context [encodable ?c] => destruct (encodable c); eauto
    end.
Qed.







(** *** Authentication dispatch *)

Lemma auth_headers_resolver env :
  let mode := lower (getenv env "UPSTREAM_AUTH" "bearer") in
  let key := getenv env "UPSTREAM_API_KEY" "" in
  (mode = "bearer" -> key = "" -> exists msg, auth_headers env = inl msg) /\
  (mode = "bearer" -> key <> "" ->
   auth_headers env = inr [("Content-Type", "application/json");
                           ("Authorization", "Bearer " ++ key)]) /\
  (mode = "none" -> auth_headers env = inr [("Content-Type", "application/json")]) /\
  (mode <> "bearer" -> mode <> "gcloud" -> mode <> "none" ->
   auth_headers env = inl ("UPSTREAM_AUTH inv" ++ a_acute ++ "lido: " ++ mode)) /\
  (forall hd, auth_headers env = inr hd ->
              lookup "Content-Type" hd = Some "application/json").
Proof.
  cbv zeta. unfold auth_headers.
  repeat match goal with |- _ /\ _ => split end.
  - intros -> ->. eexists; reflexivity.
  - intros -> Hk. cbn [String.eqb Ascii.eqb Bool.eqb].
    destruct (String.eqb_spec (getenv env "UPSTREAM_API_KEY" "") ""); [contradiction|].
    reflexivity.
  - intros ->. reflexivity.
  - intros H1 H2 H3.
    destruct (String.eqb_spec (lower (getenv env "UPSTREAM_AUTH" "bearer")) "bearer");
      [contradiction|].
    destruct (String.eqb_spec (lower (getenv env "UPSTREAM_AUTH" "bearer")) "gcloud");
      [contradiction|].
    destruct (String.eqb_spec (lower (getenv env "UPSTREAM_AUTH" "bearer")) "none");
      [contradiction|].
    reflexivity.
  - intros hd.
    destruct (lower (getenv env "UPSTREAM_AUTH" "bearer") =? "bearer").
    { destruct (getenv env "UPSTREAM_API_KEY" "" =? ""); [discriminate|].
      intros H; inversion H; reflexivity. }
    destruct (lower (getenv env "UPSTREAM_AUTH" "bearer") =? "gcloud").
    { destruct (getenv env "GOOGLE_ACCESS_TOKEN" "" =? ""); [discriminate|].
      intros H; inversion H; reflexivity. }
    destruct (lower (getenv env "UPSTREAM_AUTH" "bearer") =? "none"); [|discriminate].
    intros H; inversion H; reflexivity.
Qed.

(** C8 holds of the resolver ([auth_headers_resolver]) but not of the
    prediction passthrough: with the unknown mode [basic] the resolver
    raises and the chat endpoint answers 503, while [/vertex/predict]
    forwards the request with the [Content-Type] header alone. *)
Theorem C8_vertex_predict_unknown_auth_mode :
  let env := [("UPSTREAM_PREDICT_URL", "https://vertex.example.com/v1/predict");
              ("UPSTREAM_AUTH", "basic")] in
  _get_upstream_config env = inl ("UPSTREAM_AUTH inv" ++ a_acute ++ "lido: basic") /\
  (forall body call,
     chat_completions env body call =
       HTTPException 503 ("UPSTREAM_AUTH inv" ++ a_acute ++ "lido: basic")) /\
  vertex_auth_headers env = inr [("Content-Type", "application/json")] /\
  (forall payload call,
     vertex_predict_passthrough env payload call =
     vertex_predict_passthrough env payload
       (fun _ => call (mk_request "https://vertex.example.com/v1/predict"
                         (JsonPayload payload)
                         [("Content-Type", "application/json")]))) /\
  (forall payload,
     encodable payload = true ->
     vertex_predict_passthrough env payload echo_upstream = JSONResponse 200 payload).
Proof.
  cbv zeta. split; [reflexivity|]. split; [reflexivity|].
  split; [reflexivity|]. split; [reflexivity|].
  intros payload He.
  change (vertex_predict_passthrough
            [("UPSTREAM_PREDICT_URL", "https://vertex.example.com/v1/predict");
             ("UPSTREAM_AUTH", "basic")] payload echo_upstream)
    with (match echo_upstream
                  (mk_request "https://vertex.example.com/v1/predict"
                     (JsonPayload payload) [("Content-Type", "application/json")]) with
          | RequestError e => HTTPException 502 ("Erro ao conectar ao Vertex: " ++ e)
          | Reply resp =>
              if (status_code resp >=? 400)%Z
              then HTTPException (status_code resp) (text resp)
              else match json_body resp with
                   | None => Unhandled ValueError
                   | Some j => json_response (status_code resp) j
                   end
          | OtherError e => Unhandled e
          end).
  unfold echo_upstream. cbn [req_payload]. rewrite He.
  unfold reply_of_json, response_of_json. cbn [status_code json_body].
  change (200 >=? 400)%Z with false. cbv iota.
  unfold json_response. now rewrite He.
Qed.

Lemma C8_vertex_predict_unknown_auth_mode_witness :
  vertex_predict_passthrough
    [("UPSTREAM_PREDICT_URL", "https://vertex.example.com/v1/predict");
     ("UPSTREAM_AUTH", "basic")]
    (JDict [("instances", JList [])]) echo_upstream
  = JSONResponse 200 (JDict [("instances", JList [])]).
Proof.
  exact (proj2 (proj2 (proj2 (proj2 C8_vertex_predict_unknown_auth_mode)))
           (JDict [("instances", JList [])]) eq_refl).
Defined.

(** *** The request of the chat-completions style *)

Lemma dict_set_keys {A} (d : list (string * A)) k v v0 :
  lookup k d = Some v0 -> map fst (dict_set d k v) = map fst d.
Proof.
  induction d as [|[k1 v1] t IH]; simpl; [discriminate|].
  destruct (String.eqb_spec k1 k); simpl; [reflexivity|].
  intros H. now rewrite IH.
Qed.

(** C9, as stated, fails on a model that is present but empty: it is
    replaced by the default like an absent one. *)
Lemma C9_empty_model_counterexample :
  lookup "model"
    [("model", JStr "");
     ("messages", JList [JDict [("role", JStr "user"); ("content", JStr "hi")]])]
  = Some (JStr "") /\
  chat_completions env_chat
    (JDict [("model", JStr "");
            ("messages", JList [JDict [("role", JStr "user"); ("content", JStr "hi")]])])
    echo_upstream
  = JSONResponse 200
      (JDict [("model", JStr "demo-model");
              ("messages", JList [JDict [("role", JStr "user"); ("content", JStr "hi")]])]).
Proof. split; reflexivity. Qed.

(** C9, amended.  For a chat-completions-style target the one outbound
    request carries the resolved URL and headers and the inbound body in
    which [model] is set to the configured default when it is absent or
    empty (null, the empty string, zero, false, an empty list or object);
    every other field is unchanged, a non-empty model leaves the body as
    it came, and an absent model is appended as the last field.  An
    upstream that echoes its input returns that body when its numbers are
    finite. *)
Theorem C9_chat_body_passthrough :
  forall (env : environ) (u : string) (h : header_map) (b : dict) (call : upstream),
    _get_upstream_config env = inr (u, h) ->
    is_set env "UPSTREAM_PREDICT_URL" = false ->
    let out := inject_default_model env b in
    chat_completions env (JDict b) call =
      chat_completions env (JDict b)
        (fun _ => call (mk_request u (JsonPayload (JDict out)) h)) /\
    (truthy (dict_get b "stream" JNull) = false ->
     encodable (JDict out) = true ->
     chat_completions env (JDict b) echo_upstream = JSONResponse 200 (JDict out)) /\
    (forall k, k <> "model" -> lookup k out = lookup k b) /\
    (truthy (dict_get b "model" JNull) = true -> out = b) /\
    (truthy (dict_get b "model" JNull) = false ->
     lookup "model" out = Some (JStr (default_model env))) /\
    (lookup "model" b = None ->
     out = (b ++ [("model", JStr (default_model env))])%list) /\
    (forall v, lookup "model" b = Some v -> map fst out = map fst b).
Proof.
  intros env u h b call Hcfg Hp out.
  repeat match goal with |- _ /\ _ => split end.
  - rewrite !(chat_completions_chat env u h Hcfg b _ Hp).
    unfold chat_passthrough. fold out.
    destruct (truthy (dict_get out "stream" JNull)); reflexivity.
  - intros Hs He. rewrite (chat_completions_chat env u h Hcfg b _ Hp).
    unfold chat_passthrough. fold out.
    unfold out at 1. rewrite inject_default_model_stream, Hs.
    unfold echo_upstream. cbn [req_payload]. rewrite He.
    unfold reply_of_json, response_of_json. cbn [status_code json_body].
    change (200 >=? 400)%Z with false. cbv iota.
    unfold json_response. now rewrite He.
  - intros k Hk. apply inject_default_model_other, Hk.
  - intros Ht. unfold out, inject_default_model. now rewrite Ht.
  - intros Hf. unfold out, inject_default_model. rewrite Hf.
    apply lookup_dict_set_same.
  - intros Hn. unfold out, inject_default_model, dict_get. rewrite Hn.
    now apply dict_set_absent.
  - intros v Hv. unfold out, inject_default_model.
    destruct (truthy (dict_get b "model" JNull)); simpl; [reflexivity|].
    eapply dict_set_keys, Hv.
Qed.

Lemma C9_chat_body_passthrough_witness :
  chat_completions env_chat
    (JDict [("messages", JList [JDict [("role", JStr "user"); ("content", JStr "hi")]])])
    echo_upstream
  = JSONResponse 200
      (JDict [("messages", JList [JDict [("role", JStr "user"); ("content", JStr "hi")]]);
              ("model", JStr "demo-model")]).
Proof.
  exact (proj1 (proj2 (C9_chat_body_passthrough env_chat
    "https://llm.example.com/v1/chat/completions"
    [("Content-Type", "application/json")]
    [("messages", JList [JDict [("role", JStr "user"); ("content", JStr "hi")]])]
    echo_upstream eq_refl eq_refl)) eq_refl eq_refl).
Defined.

End Facts.

(** ** Further properties of the gateway *)

Module Extras.
Import Py Gateway Notions Facts.

(** *** Trailing slashes *)

Lemma last_char_app x y : y <> "" -> last_char (x ++ y) = last_char y.
Proof.
  intros Hy. induction x as [|c x IH]; simpl; auto.
  rewrite IH. destruct (x ++ y) eqn:E; auto.
  destruct x; simpl in E; [contradiction|discriminate].
Qed.

Lemma rstrip_last c s : last_char (rstrip c s) <> Some c.
Proof.
  induction s as [|a t IH]; simpl; [discriminate|].
  destruct (String.eqb_spec (rstrip c t) "") as [E|E]; simpl.
  - destruct (Ascii.eqb_spec a c) as [->|Hac]; simpl; [discriminate|].
    rewrite E. congruence.
  - destruct (rstrip c t) eqn:R; [contradiction|]. exact IH.
Qed.

Lemma rstrip_slashes s : exists n, s = rstrip "/" s ++ slashes n.
Proof.
  induction s as [|a t [n IH]]; simpl.
  - exists 0. reflexivity.
  - destruct (String.eqb_spec (rstrip "/" t) "") as [E|E]; simpl.
    + destruct (Ascii.eqb_spec a "/") as [->|Hac]; simpl.
      * exists (S n). simpl. f_equal. now rewrite E in IH.
      * exists n. now f_equal.
    + exists n. now f_equal.
Qed.

Lemma configured_nonempty env k : is_set env k = true -> (configured env k =? "") = false.
Proof. unfold is_set. now destruct (configured env k =? ""). Qed.

Lemma auth_headers_shape env hd :
  auth_headers env = inr hd ->
  hd = [("Content-Type", "application/json")] \/
  exists cred, (cred =? "") = false /\
    hd = [("Content-Type", "application/json"); ("Authorization", "Bearer " ++ cred)].
Proof.
  unfold auth_headers.
  destruct (lower (getenv env "UPSTREAM_AUTH" "bearer") =? "bearer").
  { destruct (getenv env "UPSTREAM_API_KEY" "" =? "") eqn:E; [discriminate|].
    intros H; inversion H. right. eexists; split; [exact E|reflexivity]. }
  destruct (lower (getenv env "UPSTREAM_AUTH" "bearer") =? "gcloud").
  { destruct (getenv env "GOOGLE_ACCESS_TOKEN" "" =? "") eqn:E; [discriminate|].
    intros H; inversion H. right. eexists; split; [exact E|reflexivity]. }
  destruct (lower (getenv env "UPSTREAM_AUTH" "bearer") =? "none"); [|discriminate].
  intros H; inversion H. now left.
Qed.

(** X1. Whatever the resolver returns is usable as it is: the URL is not
    empty, does not end with a slash and holds neither [localhost] nor
    [127.0.0.1]; the headers are [Content-Type: application/json] alone or
    followed by one [Authorization: Bearer <credential>] with a non-empty
    credential. *)
Theorem resolver_success_invariants :
  forall (env : environ) (u : string) (h : header_map),
    _get_upstream_config env = inr (u, h) ->
    (u =? "") = false /\
    last_char u <> Some "/"%char /\
    is_local u = false /\
    lookup "Content-Type" h = Some "application/json" /\
    (h = [("Content-Type", "application/json")] \/
     exists cred, (cred =? "") = false /\
       h = [("Content-Type", "application/json");
            ("Authorization", "Bearer " ++ cred)]).
Proof.
  intros env u h Hcfg.
  destruct (config_ok_selected env u h Hcfg) as (Hs & Hl & Ha).
  pose proof (auth_headers_shape env h Ha) as Hshape.
  assert (Hu : (u =? "") = false /\ last_char u <> Some "/"%char).
  { rewrite select_upstream_url_cases in Hs.
    destruct (is_set env "UPSTREAM_PREDICT_URL") eqn:Hp.
    { inversion Hs; subst. split; [now apply configured_nonempty|apply rstrip_last]. }
    destruct (is_set env "UPSTREAM_CHAT_COMPLETIONS_URL") eqn:Hc.
    { inversion Hs; subst. split; [now apply configured_nonempty|apply rstrip_last]. }
    destruct (is_set env "UPSTREAM_API_BASE_URL") eqn:Hb; [|discriminate].
    inversion Hs; subst. split.
    - destruct (configured env "UPSTREAM_API_BASE_URL"); reflexivity.
    - rewrite last_char_app; discriminate. }
  destruct Hu as [Hne Hlast].
  repeat match goal with |- _ /\ _ => split end; auto.
  destruct Hshape as [->|(cred & _ & ->)]; reflexivity.
Qed.

Lemma resolver_success_invariants_witness :
  ("https://llm.example.com/v1/chat/completions" =? "") = false /\
  last_char "https://llm.example.com/v1/chat/completions" <> Some "/"%char /\
  is_local "https://llm.example.com/v1/chat/completions" = false /\
  lookup "Content-Type" [("Content-Type", "application/json")]
    = Some "application/json" /\
  ([("Content-Type", "application/json")] = [("Content-Type", "application/json")] \/
   exists cred, (cred =? "") = false /\
     [("Content-Type", "application/json")] =
     [("Content-Type", "application/json"); ("Authorization", "Bearer " ++ cred)]).
Proof.
  exact (resolver_success_invariants env_chat
           "https://llm.example.com/v1/chat/completions"
           [("Content-Type", "application/json")] eq_refl).
Defined.

(** X2. The selected URL comes from one configured value by dropping
    trailing slashes only: the prediction or chat-completions value is the
    selected URL followed by slashes, or the base value is a prefix
    followed by slashes and the selected URL is that prefix joined with
    [/v1/chat/completions]. *)
Theorem selected_url_origin :
  forall (env : environ) (u : string),
    select_upstream_url env = Some u ->
    (exists n, getenv env "UPSTREAM_PREDICT_URL" "" = u ++ slashes n) \/
    (exists n, getenv env "UPSTREAM_CHAT_COMPLETIONS_URL" "" = u ++ slashes n) \/
    (exists base n,
       getenv env "UPSTREAM_API_BASE_URL" "" = base ++ slashes n /\
       u = base ++ "/v1/chat/completions").
Proof.
  intros env u Hs. rewrite select_upstream_url_cases in Hs.
  destruct (is_set env "UPSTREAM_PREDICT_URL").
  { inversion Hs; subst. left. apply rstrip_slashes. }
  destruct (is_set env "UPSTREAM_CHAT_COMPLETIONS_URL").
  { inversion Hs; subst. right; left. apply rstrip_slashes. }
  destruct (is_set env "UPSTREAM_API_BASE_URL"); [|discriminate].
  inversion Hs; subst. right; right.
  destruct (rstrip_slashes (getenv env "UPSTREAM_API_BASE_URL" "")) as [n Hn].
  exists (configured env "UPSTREAM_API_BASE_URL"), n. split; [exact Hn|reflexivity].
Qed.

Lemma selected_url_origin_witness :
  let env := [("UPSTREAM_API_BASE_URL", "https://api.example.com//")] in
  let u := "https://api.example.com/v1/chat/completions" in
  (exists n, getenv env "UPSTREAM_PREDICT_URL" "" = u ++ slashes n) \/
  (exists n, getenv env "UPSTREAM_CHAT_COMPLETIONS_URL" "" = u ++ slashes n) \/
  (exists base n,
     getenv env "UPSTREAM_API_BASE_URL" "" = base ++ slashes n /\
     u = base ++ "/v1/chat/completions").
Proof.
  exact (selected_url_origin
           [("UPSTREAM_API_BASE_URL", "https://api.example.com//")]
           "https://api.example.com/v1/chat/completions" eq_refl).
Defined.

(** *** Authentication modes *)

Lemma getenv_cons_same (env : environ) k v d : getenv ((k, v) :: env) k d = v.
Proof. unfold getenv; simpl. now rewrite String.eqb_refl. Qed.

Lemma getenv_cons_other (env : environ) k v k' d :
  (k =? k') = false -> getenv ((k, v) :: env) k' d = getenv env k' d.
Proof. intros H. unfold getenv; simpl. now rewrite H. Qed.

(** X3. The authentication mode is matched without regard to letter case:
    two environments that differ only in the case of [UPSTREAM_AUTH]
    resolve to the same result, and the prediction passthrough answers
    the same. *)
Theorem auth_mode_case_insensitive :
  forall (env : environ) (m m' : string),
    lower m = lower m' ->
    _get_upstream_config (("UPSTREAM_AUTH", m) :: env) =
    _get_upstream_config (("UPSTREAM_AUTH", m') :: env) /\
    forall payload call,
      vertex_predict_passthrough (("UPSTREAM_AUTH", m) :: env) payload call =
      vertex_predict_passthrough (("UPSTREAM_AUTH", m') :: env) payload call.
Proof.
  intros env m m' Hm. split.
  - unfold _get_upstream_config, select_upstream_url, auth_headers.
    rewrite !getenv_cons_same, !getenv_cons_other by reflexivity.
    now rewrite Hm.
  - intros payload call.
    unfold vertex_predict_passthrough, vertex_auth_headers.
    rewrite !getenv_cons_same, !getenv_cons_other by reflexivity.
    now rewrite Hm.
Qed.

Lemma auth_mode_case_insensitive_witness :
  _get_upstream_config
    [("UPSTREAM_AUTH", "Bearer"); ("UPSTREAM_API_KEY", "k-1");
     ("UPSTREAM_API_BASE_URL", "https://api.example.com")] =
  _get_upstream_config
    [("UPSTREAM_AUTH", "BEARER"); ("UPSTREAM_API_KEY", "k-1");
     ("UPSTREAM_API_BASE_URL", "https://api.example.com")].
Proof.
  exact (proj1 (auth_mode_case_insensitive
           [("UPSTREAM_API_KEY", "k-1");
            ("UPSTREAM_API_BASE_URL", "https://api.example.com")]
           "Bearer" "BEARER" eq_refl)).
Defined.

(** X4. When [UPSTREAM_AUTH] is set, headers accepted by the resolver are
    the headers the prediction passthrough builds: the two dispatches
    agree on [bearer], [gcloud] and [none]. *)
Theorem auth_dispatch_agreement :
  forall (env : environ) (m : string) (h : header_map),
    lookup "UPSTREAM_AUTH" env = Some m ->
    auth_headers env = inr h ->
    vertex_auth_headers env = inr h.
Proof.
  intros env m h Hm.
  assert (G : forall d, getenv env "UPSTREAM_AUTH" d = m).
  { intros d. unfold getenv. now rewrite Hm. }
  unfold auth_headers, vertex_auth_headers. rewrite !G.
  destruct (String.eqb_spec (lower m) "bearer") as [E|Hb].
  { rewrite E. cbn [String.eqb Ascii.eqb Bool.eqb].
    destruct (getenv env "UPSTREAM_API_KEY" "" =? ""); [discriminate|auto]. }
  destruct (String.eqb_spec (lower m) "gcloud") as [E|Hg].
  { destruct (getenv env "GOOGLE_ACCESS_TOKEN" "" =? ""); [discriminate|auto]. }
  destruct (String.eqb_spec (lower m) "none") as [E|Hn]; [auto|discriminate].
Qed.

Lemma auth_dispatch_agreement_witness :
  vertex_auth_headers
    [("UPSTREAM_AUTH", "gcloud"); ("GOOGLE_ACCESS_TOKEN", "ya29.t")]
  = inr [("Content-Type", "application/json"); ("Authorization", "Bearer ya29.t")].
Proof.
  exact (auth_dispatch_agreement
           [("UPSTREAM_AUTH", "gcloud"); ("GOOGLE_ACCESS_TOKEN", "ya29.t")]
           "gcloud"
           [("Content-Type", "application/json"); ("Authorization", "Bearer ya29.t")]
           eq_refl eq_refl).
Defined.

(** *** Transport failures and malformed requests *)

(** X5. A transport failure of the upstream call is answered by the chat
    endpoint with 502 and the cause, in the prediction branch and in both
    modes of the chat-completions branch. *)
Theorem chat_transport_failure_502 :
  forall (env : environ) (u : string) (h : header_map) (b : dict) (msg : string),
    _get_upstream_config env = inr (u, h) ->
    chat_completions env (JDict b) (fun _ => RequestError msg) =
      HTTPException 502 ("Erro ao conectar ao upstream: " ++ msg).
Proof.
  intros env u h b msg Hcfg.
  destruct (is_set env "UPSTREAM_PREDICT_URL") eqn:Hp.
  - destruct (chat_completions_predict env u h Hcfg b (fun _ => RequestError msg) Hp)
      as [_ ->]. reflexivity.
  - rewrite (chat_completions_chat env u h Hcfg b _ Hp).
    unfold chat_passthrough.
    destruct (truthy (dict_get (inject_default_model env b) "stream" JNull)); reflexivity.
Qed.

Lemma chat_transport_failure_502_witness :
  chat_completions env_chat (JDict [("stream", JBool true)])
    (fun _ => RequestError "connection refused")
  = HTTPException 502 "Erro ao conectar ao upstream: connection refused".
Proof.
  exact (chat_transport_failure_502 env_chat
           "https://llm.example.com/v1/chat/completions"
           [("Content-Type", "application/json")]
           [("stream", JBool true)] "connection refused" eq_refl).
Defined.

(** X6. The prediction passthrough answers a transport failure with 502;
    the tool passthrough has no handler for it, so the failure leaves the
    endpoint as an unhandled exception (status 500). *)
Theorem passthrough_transport_failure :
  forall (env : environ) (msg : string),
    (forall h payload,
       is_set env "UPSTREAM_PREDICT_URL" = true ->
       is_local (configured env "UPSTREAM_PREDICT_URL") = false ->
       vertex_auth_headers env = inr h ->
       vertex_predict_passthrough env payload (fun _ => RequestError msg) =
         HTTPException 502 ("Erro ao conectar ao Vertex: " ++ msg)) /\
    (forall name payload,
       is_set env "GENAI_TOOLBOX_URL" = true ->
       is_local (configured env "GENAI_TOOLBOX_URL") = false ->
       toolbox_invoke env name payload (fun _ => RequestError msg) =
         UnhandledRequestError msg /\
       http_status (toolbox_invoke env name payload (fun _ => RequestError msg))
         = 500%Z).
Proof.
  intros env msg. split.
  - intros h payload Hp Hl Ha. unfold vertex_predict_passthrough.
    fold (configured env "UPSTREAM_PREDICT_URL").
    rewrite (configured_nonempty _ _ Hp), Hl, Ha. reflexivity.
  - intros name payload Hp Hl. unfold toolbox_invoke.
    fold (configured env "GENAI_TOOLBOX_URL").
    rewrite (configured_nonempty _ _ Hp), Hl. split; reflexivity.
Qed.

Lemma passthrough_transport_failure_witness :
  vertex_predict_passthrough
    [("UPSTREAM_PREDICT_URL", "https://vertex.example.com/v1/predict");
     ("GOOGLE_ACCESS_TOKEN", "ya29.t")]
    JNull (fun _ => RequestError "timeout")
  = HTTPException 502 "Erro ao conectar ao Vertex: timeout" /\
  toolbox_invoke [("GENAI_TOOLBOX_URL", "https://tools.example.com")]
    "search" "{}" (fun _ => RequestError "timeout")
  = UnhandledRequestError "timeout".
Proof.
  split.
  - exact (proj1 (passthrough_transport_failure
             [("UPSTREAM_PREDICT_URL", "https://vertex.example.com/v1/predict");
              ("GOOGLE_ACCESS_TOKEN", "ya29.t")] "timeout")
             [("Content-Type", "application/json"); ("Authorization", "Bearer ya29.t")]
             JNull eq_refl eq_refl eq_refl).
  - exact (proj1 (proj2 (passthrough_transport_failure
             [("GENAI_TOOLBOX_URL", "https://tools.example.com")] "timeout")
             "search" "{}" eq_refl eq_refl)).
Defined.

(** X7. A request body that is valid JSON but not an object (a list, a
    string, a number, null) makes the chat endpoint fail with an
    unhandled [AttributeError], before any upstream call; a configuration
    error is still reported first. *)
Theorem chat_non_object_body :
  forall (env : environ) (body : json) (call : upstream),
    is_object body = false ->
    (forall u h, _get_upstream_config env = inr (u, h) ->
       chat_completions env body call = Unhandled AttributeError) /\
    (forall msg, _get_upstream_config env = inl msg ->
       chat_completions env body call = HTTPException 503 msg).
Proof.
  intros env body call Hb. split.
  - intros u h Hcfg. unfold chat_completions. rewrite Hcfg.
    destruct body; try reflexivity. discriminate.
  - intros msg Hcfg. unfold chat_completions. now rewrite Hcfg.
Qed.

Lemma chat_non_object_body_witness :
  chat_completions env_chat (JList [JStr "hi"]) echo_upstream
  = Unhandled AttributeError.
Proof.
  exact (proj1 (chat_non_object_body env_chat (JList [JStr "hi"]) echo_upstream eq_refl)
           "https://llm.example.com/v1/chat/completions"
           [("Content-Type", "application/json")] eq_refl).
Defined.

(** *** The prediction envelope *)

Lemma dict_mem_lookup {A} k (d : list (string * A)) :
  dict_mem k d = match lookup k d with Some _ => true | None => false end.
Proof. reflexivity. Qed.

(** X8. The prediction envelope holds one instance with the format
    marker, the messages of the request (an empty list when it has none),
    and [max_tokens] and [temperature] exactly as the request has them:
    present with the same value, or absent.  No other field of the
    request ([model], [stream], ...) is forwarded. *)
Theorem predict_payload_shape :
  forall b : dict,
    exists instance : dict,
      predict_payload b = JDict [("instances", JList [JDict instance])] /\
      lookup "@requestFormat" instance = Some (JStr "chatCompletions") /\
      lookup "messages" instance = Some (dict_get b "messages" (JList [])) /\
      lookup "max_tokens" instance = lookup "max_tokens" b /\
      lookup "temperature" instance = lookup "temperature" b /\
      forallb (fun kv => existsb (String.eqb (fst kv)) instance_keys) instance = true.
Proof.
  intros b. unfold predict_payload. rewrite !dict_mem_lookup. unfold dict_get.
  destruct (lookup "max_tokens" b) as [mt|];
    destruct (lookup "temperature" b) as [te|];
    eexists; repeat split.
Qed.

(** X9. In the prediction branch the chat endpoint makes its one call to
    the prediction URL with the resolved headers and the envelope built
    from the request after the default model was injected. *)
Theorem chat_predict_outbound :
  forall (env : environ) (u : string) (h : header_map) (b : dict) (call : upstream),
    _get_upstream_config env = inr (u, h) ->
    is_set env "UPSTREAM_PREDICT_URL" = true ->
    u = configured env "UPSTREAM_PREDICT_URL" /\
    chat_completions env (JDict b) call =
      chat_completions env (JDict b)
        (fun _ => call (mk_request u
                          (JsonPayload (predict_payload (inject_default_model env b)))
                          h)).
Proof.
  intros env u h b call Hcfg Hp.
  destruct (chat_completions_predict env u h Hcfg b call Hp) as [Hu E].
  split; [exact Hu|]. rewrite E.
  destruct (chat_completions_predict env u h Hcfg b
              (fun _ => call (mk_request u
                 (JsonPayload (predict_payload (inject_default_model env b))) h)) Hp)
    as [_ ->].
  reflexivity.
Qed.

Lemma chat_predict_outbound_witness :
  chat_completions env_predict
    (JDict [("messages", JList [JStr "m"]); ("temperature", JInt 0);
            ("stream", JBool false)])
    (fun req => match req_payload req with
                | JsonPayload j => reply_of_json 200 (JDict [("predictions", JDict [("id", j)])])
                | RawPayload _ => RequestError ""
                end)
  = JSONResponse 200
      (JDict [("id", JDict [("instances",
                 JList [JDict [("@requestFormat", JStr "chatCompletions");
                               ("messages", JList [JStr "m"]);
                               ("temperature", JInt 0)]])]);
              ("object", JStr "chat.completion");
              ("created", JNull);
              ("model", JStr "demo-model");
              ("choices", JList []);
              ("usage", JDict [])]).
Proof.
  rewrite (proj2 (chat_predict_outbound env_predict
                    "https://vertex.example.com/v1/predict"
                    [("Content-Type", "application/json")]
                    [("messages", JList [JStr "m"]); ("temperature", JInt 0);
                     ("stream", JBool false)]
                    _ eq_refl eq_refl)).
  reflexivity.
Defined.

(** *** Successful answers *)







(** *** The prediction branch *)

(** X13. In the prediction branch the upstream status is not mirrored:
    whenever the upstream answers below 400 with a JSON body, the chat
    endpoint either answers with status 200 (a ChatCompletion or an
    emulated stream of type [text/event-stream]) or fails with an
    unhandled exception. *)
Theorem chat_predict_success_status :
  forall (env : environ) (u : string) (h : header_map) (b : dict)
         (resp : response) (vertex : json),
    _get_upstream_config env = inr (u, h) ->
    is_set env "UPSTREAM_PREDICT_URL" = true ->
    (status_code resp <? 400)%Z = true ->
    json_body resp = Some vertex ->
    let o := chat_completions env (JDict b) (fun _ => Reply resp) in
    (exists e, o = Unhandled e) \/
    (exists j, o = JSONResponse 200 j) \/
    (exists g, o = StreamingResponse 200 "text/event-stream" g).
Proof.
  intros env u h b resp vertex Hcfg Hp Hst Hj o. unfold o.
  destruct (chat_completions_predict env u h Hcfg b (fun _ => Reply resp) Hp) as [_ ->].
  rewrite (chat_predict_ok u h _ (fun _ => Reply resp) resp vertex eq_refl Hst Hj).
  apply translate_prediction_outcomes.
Qed.

Lemma chat_predict_success_status_witness :
  let o := chat_completions env_predict (JDict [("messages", JList [])])
             (fun _ => reply_of_json 201 (JDict [("predictions", JDict [])])) in
  (exists e, o = Unhandled e) \/
  (exists j, o = JSONResponse 200 j) \/
  (exists g, o = StreamingResponse 200 "text/event-stream" g).
Proof.
  exact (chat_predict_success_status env_predict
           "https://vertex.example.com/v1/predict"
           [("Content-Type", "application/json")]
           [("messages", JList [])]
           (response_of_json 201 (JDict [("predictions", JDict [])]))
           (JDict [("predictions", JDict [])])
           eq_refl eq_refl eq_refl eq_refl).
Defined.

(** *** The streaming emulator *)

Lemma ceil_div_chunk_bound L : ceil_div L (chunk_size_of L) <= 21.
Proof.
  destruct (chunk_size_of_spec L) as [E HS]. unfold ceil_div.
  assert (Hlt : L + chunk_size_of L - 1 < chunk_size_of L * 22).
  { pose proof (Nat.div_mod_eq L 20) as D.
    pose proof (Nat.mod_upper_bound L 20) as B.
    rewrite E in *. nia. }
  apply Nat.Div0.div_lt_upper_bound in Hlt. lia.
Qed.

(** X14. The emulated stream is short whatever the content: the slice
    size is [max(20, L // 20)] (the [or 1] never applies) and at least 20,
    there are at most 21 content chunks, and the stream has
    [3 + ceil(L/S)] frames, at most 24. *)
Theorem sse_iter_frame_count :
  forall (oid model : json) (choice0 : dict) (rest : list json) (s : string),
    let L := String.length s in
    let S := chunk_size_of L in
    let fr := frames (run_gen (sse_iter oid model (JList (JDict choice0 :: rest)) (JStr s))) in
    S = Nat.max 20 (L / 20) /\
    20 <= S /\
    List.length fr = 3 + ceil_div L S /\
    ceil_div L S <= 21 /\
    List.length fr <= 24.
Proof.
  intros oid model choice0 rest s L S fr.
  destruct (chunk_size_of_spec L) as [E HS].
  assert (Hn : List.length fr = 3 + ceil_div L S).
  { unfold fr. rewrite sse_iter_string. unfold run_gen; cbn [fst frames].
    cbn [List.length]. rewrite length_app, length_map. cbn [List.length].
    unfold content_slices. rewrite length_map. fold L S.
    rewrite range_length by (unfold S; lia). unfold ceil_div. lia. }
  pose proof (ceil_div_chunk_bound L) as Hb. fold S in Hb.
  repeat split; auto. lia.
Qed.

(** X15. A content that has no length (null, a number, a boolean) breaks
    the emulated stream after its first frame: the answer has started
    with status 200 and carries the role chunk alone, then the generator
    stops with a [TypeError]; no terminal chunk and no [[DONE]] frame
    follow. *)
Theorem sse_iter_content_without_length :
  forall (b : dict) (vertex : json) (pd choice0 message : dict) (rest : list json),
    predictions_of vertex = Ok (JDict pd) ->
    truthy (dict_get b "stream" JNull) = true ->
    dict_get pd "choices" JNull = JList (JDict choice0 :: rest) ->
    dict_get choice0 "message" (JDict []) = JDict message ->
    has_len (dict_get message "content" (JStr "")) = false ->
    translate_prediction b vertex =
      StreamingResponse 200 "text/event-stream"
        (mk_generated
           [sse_frame (chunk_event (dict_get pd "id" JNull)
                         (py_or (dict_get pd "model" JNull) (dict_get b "model" JNull))
                         [("role", JStr "assistant")] JNull)]
           (Some TypeError)).
Proof.
  intros b vertex pd choice0 message rest Hp Hs Hc Hm Hl.
  rewrite (translate_prediction_stream _ _ _ _ _ _ Hp Hs Hc Hm).
  destruct (dict_get message "content" (JStr "")); try discriminate; reflexivity.
Qed.

Lemma sse_iter_content_without_length_witness :
  translate_prediction [("stream", JBool true); ("model", JStr "m")]
    (JDict [("predictions",
             JDict [("choices",
                     JList [JDict [("message", JDict [("content", JNull)])]])])])
  = StreamingResponse 200 "text/event-stream"
      (mk_generated
         [sse_frame (chunk_event JNull (JStr "m") [("role", JStr "assistant")] JNull)]
         (Some TypeError)).
Proof.
  exact (sse_iter_content_without_length
           [("stream", JBool true); ("model", JStr "m")]
           (JDict [("predictions",
                    JDict [("choices",
                            JList [JDict [("message", JDict [("content", JNull)])]])])])
           [("choices", JList [JDict [("message", JDict [("content", JNull)])]])]
           [("message", JDict [("content", JNull)])]
           [("content", JNull)] []
           eq_refl eq_refl eq_refl eq_refl eq_refl).
Defined.

(** X16. A first choice without a message, or with a message without a
    content, is streamed as an empty content: the role chunk, the terminal
    chunk and the [[DONE]] frame, without an exception. *)
Theorem sse_iter_missing_content :
  forall (b : dict) (vertex : json) (pd choice0 message : dict) (rest : list json),
    predictions_of vertex = Ok (JDict pd) ->
    truthy (dict_get b "stream" JNull) = true ->
    dict_get pd "choices" JNull = JList (JDict choice0 :: rest) ->
    dict_get choice0 "message" (JDict []) = JDict message ->
    lookup "content" message = None ->
    let oid := dict_get pd "id" JNull in
    let model := py_or (dict_get pd "model" JNull) (dict_get b "model" JNull) in
    translate_prediction b vertex =
      StreamingResponse 200 "text/event-stream"
        (mk_generated
           [sse_frame (chunk_event oid model [("role", JStr "assistant")] JNull);
            sse_frame (chunk_event oid model [] (terminal_finish_reason choice0));
            done_frame]
           None).
Proof.
  intros b vertex pd choice0 message rest Hp Hs Hc Hm Hl oid model.
  rewrite (translate_prediction_stream _ _ _ _ _ _ Hp Hs Hc Hm).
  replace (dict_get message "content" (JStr "")) with (JStr "")
    by (unfold dict_get; now rewrite Hl).
  rewrite sse_iter_string. reflexivity.
Qed.

Lemma sse_iter_missing_content_witness :
  translate_prediction [("stream", JBool true); ("model", JStr "m")]
    (JDict [("predictions",
             JList [JDict [("choices", JList [JDict [("finish_reason", JStr "length")]])]])])
  = StreamingResponse 200 "text/event-stream"
      (mk_generated
         [sse_frame (chunk_event JNull (JStr "m") [("role", JStr "assistant")] JNull);
          sse_frame (chunk_event JNull (JStr "m") [] (JStr "length"));
          done_frame]
         None).
Proof.
  exact (sse_iter_missing_content
           [("stream", JBool true); ("model", JStr "m")]
           (JDict [("predictions",
                    JList [JDict [("choices",
                                   JList [JDict [("finish_reason", JStr "length")]])]])])
           [("choices", JList [JDict [("finish_reason", JStr "length")]])]
           [("finish_reason", JStr "length")]
           [] []
           eq_refl eq_refl eq_refl eq_refl eq_refl).
Defined.

(** *** A content given as a list of parts *)

Lemma list_slices_concat (l : list json) step fuel i :
  1 <= step ->
  List.length l - i <= fuel ->
  List.concat
    (map (fun j => list_slice l j (j + step))
         (range_from fuel i (List.length l) step)) = skipn i l.
Proof.
  intros Hstep. revert i; induction fuel as [|fuel IH]; intros i Hf; simpl.
  - symmetry; apply skipn_all2; lia.
  - destruct (Nat.ltb_spec i (List.length l)) as [Hlt|Hge].
    + cbn [map List.concat]. rewrite IH by lia.
      unfold list_slice. replace (i + step - i) with step by lia.
      rewrite <- (firstn_skipn step (skipn i l)) at 2.
      f_equal. rewrite skipn_skipn. f_equal. lia.
    + symmetry; apply skipn_all2; lia.
Qed.

Lemma list_slice_length (l : list json) i n :
  List.length (list_slice l i (i + n)) = Nat.min n (List.length l - i).
Proof.
  unfold list_slice. replace (i + n - i) with n by lia.
  now rewrite length_firstn, length_skipn.
Qed.

Lemma sse_iter_list oid model choice0 rest l :
  sse_iter oid model (JList (JDict choice0 :: rest)) (JList l) =
  (sse_frame (chunk_event oid model [("role", JStr "assistant")] JNull)
     :: map (fun p => sse_frame (chunk_event oid model [("content", JList p)] JNull))
            (content_list_slices l)
     ++ [sse_frame (chunk_event oid model [] (terminal_finish_reason choice0));
         done_frame],
   Ok tt).
Proof.
  unfold sse_iter, content_list_slices.
  cbn [py_len glift gbind yield].
  set (S := chunk_size_of (List.length l)).
  rewrite (for_each_yield _ _
    (fun i => sse_frame (chunk_event oid model
                 [("content", JList (list_slice l i (i + S)))] JNull)))
    by reflexivity.
  cbn [py_index0 py_get glift gbind yield app].
  rewrite map_map.
  replace (py_or (dict_get choice0 "finish_reason" JNull) (JStr "stop"))
    with (terminal_finish_reason choice0).
  - reflexivity.
  - unfold terminal_finish_reason, py_or, dict_get.
    destruct (lookup "finish_reason" choice0); reflexivity.
Qed.

(** X17. A content that is a list of parts is streamed like a string: the
    content chunks carry consecutive sub-lists, each non-empty and at most
    [S] parts long, [ceil(L/S)] of them, whose concatenation is the list;
    the role chunk comes first, the terminal chunk and [[DONE]] last. *)
Theorem sse_iter_list_content :
  forall (oid model : json) (choice0 : dict) (rest l : list json),
    let L := List.length l in
    let S := chunk_size_of L in
    exists pieces : list (list json),
      run_gen (sse_iter oid model (JList (JDict choice0 :: rest)) (JList l)) =
        mk_generated
          (sse_frame (chunk_event oid model [("role", JStr "assistant")] JNull)
             :: map (fun p =>
                       sse_frame (chunk_event oid model [("content", JList p)] JNull))
                    pieces
             ++ [sse_frame (chunk_event oid model [] (terminal_finish_reason choice0));
                 done_frame])
          None /\
      List.length pieces = ceil_div L S /\
      List.concat pieces = l /\
      Forall (fun p => 1 <= List.length p <= S) pieces.
Proof.
  intros oid model choice0 rest l L S.
  destruct (chunk_size_of_spec L) as [_ HS]. fold S in HS.
  exists (content_list_slices l).
  split; [|split; [|split]].
  - rewrite sse_iter_list. reflexivity.
  - unfold content_list_slices. rewrite length_map. fold L S.
    apply range_length; lia.
  - unfold content_list_slices, range. fold L S.
    unfold L. rewrite list_slices_concat by (fold L; lia). reflexivity.
  - unfold content_list_slices. fold L S. apply Forall_map.
    eapply Forall_impl; [|apply range_from_bound].
    intros j Hj. cbv beta. rewrite list_slice_length. unfold L in *. lia.
Qed.

(** *** The default model *)

Lemma dict_set_twice {A} (d : list (string * A)) k v :
  dict_set (dict_set d k v) k v = dict_set d k v.
Proof.
  induction d as [|[k0 v0] t IH]; simpl.
  - now rewrite String.eqb_refl.
  - destruct (String.eqb_spec k0 k) as [->|Hk]; simpl.
    + now rewrite String.eqb_refl.
    + destruct (String.eqb_spec k0 k); [contradiction|]. now rewrite IH.
Qed.

(** X18. After the default model is injected the request always has a
    [model] field, injecting again changes nothing, and for a request
    without a usable model the injected id is the one [/v1/models]
    lists. *)
Theorem default_model_consistency :
  forall (env : environ) (b : dict),
    dict_mem "model" (inject_default_model env b) = true /\
    inject_default_model env (inject_default_model env b) = inject_default_model env b /\
    (if truthy (dict_get b "model" JNull) then
       lookup "model" (inject_default_model env b) = lookup "model" b
     else
       exists m,
         lookup "model" (inject_default_model env b) = Some (JStr m) /\
         list_models env =
           JDict [("object", JStr "list");
                  ("data", JList [JDict [("id", JStr m); ("object", JStr "model")]])]).
Proof.
  intros env b.
  assert (Hin : inject_default_model env b =
                if truthy (dict_get b "model" JNull) then b
                else dict_set b "model" (JStr (default_model env))).
  { unfold inject_default_model. now destruct (truthy (dict_get b "model" JNull)). }
  split; [|split].
  - rewrite Hin. unfold dict_mem.
    destruct (truthy (dict_get b "model" JNull)) eqn:Ht.
    + unfold dict_get in Ht. destruct (lookup "model" b); [reflexivity|discriminate].
    + now rewrite lookup_dict_set_same.
  - rewrite Hin.
    destruct (truthy (dict_get b "model" JNull)) eqn:Ht.
    + unfold inject_default_model. now rewrite Ht.
    + unfold inject_default_model, dict_get. rewrite lookup_dict_set_same.
      destruct (truthy (JStr (default_model env))); cbn [negb]; [reflexivity|].
      apply dict_set_twice.
  - rewrite Hin.
    destruct (truthy (dict_get b "model" JNull)); [reflexivity|].
    exists (default_model env). split; [apply lookup_dict_set_same|reflexivity].
Qed.

(** *** The loopback test is a substring test *)

Lemma prefix_app n post : prefix n (n ++ post) = true.
Proof.
  induction n as [|c n IH]; simpl.
  - now destruct post.
  - destruct (ascii_dec c c); [exact IH|contradiction].
Qed.

Lemma contains_prefix n hay : prefix n hay = true -> contains n hay = true.
Proof. intros H. destruct hay; cbn [contains]; now rewrite H. Qed.

Lemma contains_app n pre post : contains n (pre ++ n ++ post) = true.
Proof.
  induction pre as [|c pre IH].
  - change ("" ++ n ++ post) with (n ++ post). apply contains_prefix, prefix_app.
  - cbn [append contains]. rewrite IH. apply orb_true_r.
Qed.

(** X19. The loopback policy looks for the text, not for the host: a
    selected URL with [localhost] or [127.0.0.1] anywhere in it (host,
    sub-domain, path or query) is refused by the resolver, and the chat
    endpoint answers 503 without calling upstream. *)
Theorem loopback_substring_anywhere :
  forall (env : environ) (pre post name : string),
    name = "localhost" \/ name = "127.0.0.1" ->
    select_upstream_url env = Some (pre ++ name ++ post) ->
    _get_upstream_config env = inl "PROIBIDO LOCALHOST em upstream" /\
    forall body call,
      chat_completions env body call =
        HTTPException 503 "PROIBIDO LOCALHOST em upstream".
Proof.
  intros env pre post name Hn Hs.
  assert (Hl : is_local (pre ++ name ++ post) = true).
  { unfold is_local. destruct Hn as [->| ->]; rewrite contains_app;
      [reflexivity|apply orb_true_r]. }
  assert (E : _get_upstream_config env = inl "PROIBIDO LOCALHOST em upstream").
  { unfold _get_upstream_config. now rewrite Hs, Hl. }
  split; [exact E|]. intros body call. unfold chat_completions. now rewrite E.
Qed.

Lemma loopback_substring_anywhere_witness :
  _get_upstream_config
    [("UPSTREAM_CHAT_COMPLETIONS_URL", "https://llm.example.com/v1?ref=localhost-docs");
     ("UPSTREAM_AUTH", "none")]
  = inl "PROIBIDO LOCALHOST em upstream".
Proof.
  exact (proj1 (loopback_substring_anywhere
           [("UPSTREAM_CHAT_COMPLETIONS_URL", "https://llm.example.com/v1?ref=localhost-docs");
            ("UPSTREAM_AUTH", "none")]
           "https://llm.example.com/v1?ref=" "-docs" "localhost"
           (or_introl eq_refl) eq_refl)).
Defined.

(** *** Passthrough endpoints without their URL *)

Lemma not_set_empty env k : is_set env k = false -> (configured env k =? "") = true.
Proof. unfold is_set. now destruct (configured env k =? ""). Qed.

(** X20. The passthrough endpoints read their own URL only: without a
    prediction URL (unset, empty or made of slashes) [/vertex/predict]
    answers 503 even when the chat endpoint is configured through another
    URL, and without a toolbox URL [/tools/{name}/invoke] answers 503; in
    both cases nothing is sent upstream. *)
Theorem passthrough_missing_url :
  forall env : environ,
    (is_set env "UPSTREAM_PREDICT_URL" = false ->
     forall payload call,
       vertex_predict_passthrough env payload call =
         HTTPException 503 "Defina UPSTREAM_PREDICT_URL") /\
    (is_set env "GENAI_TOOLBOX_URL" = false ->
     forall name payload call,
       toolbox_invoke env name payload call =
         HTTPException 503 "Defina GENAI_TOOLBOX_URL").
Proof.
  intros env. split.
  - intros Hp payload call. unfold vertex_predict_passthrough.
    fold (configured env "UPSTREAM_PREDICT_URL").
    now rewrite (not_set_empty _ _ Hp).
  - intros Hp name payload call. unfold toolbox_invoke.
    fold (configured env "GENAI_TOOLBOX_URL").
    now rewrite (not_set_empty _ _ Hp).
Qed.

Lemma passthrough_missing_url_witness :
  vertex_predict_passthrough env_chat JNull echo_upstream
  = HTTPException 503 "Defina UPSTREAM_PREDICT_URL" /\
  toolbox_invoke [("GENAI_TOOLBOX_URL", "//")] "search" "{}" echo_upstream
  = HTTPException 503 "Defina GENAI_TOOLBOX_URL".
Proof.
  split.
  - exact (proj1 (passthrough_missing_url env_chat) eq_refl JNull echo_upstream).
  - exact (proj2 (passthrough_missing_url [("GENAI_TOOLBOX_URL", "//")])
             eq_refl "search" "{}" echo_upstream).
Defined.

End Extras.
